(** * cmd-client: launcher control client of virt-handler

    A shallow embedding of [pkg/virt-handler/cmd-client/client.go] and of the
    Go library functions it calls ([path/filepath], [strings], [fmt], the
    sentinel errors of [io] and [net/rpc]).

    Go strings are byte sequences: they are modelled by [string], whose
    characters are the 256 values of [ascii].  A Go pointer that may be nil
    is an [option]; a Go [error] interface value is an [option error]. *)

From Stdlib Require Import String Ascii List Bool Arith NArith Lia.
Import ListNotations.
Local Open Scope string_scope.
Local Open Scope list_scope.

(** ** Go library: bytes and strings *)

Module GoStrings.

(** [strings.IndexByte(s, c) >= 0] *)
Fixpoint containsByte (c : ascii) (s : string) : bool :=
  match s with
  | EmptyString => false
  | String x s' => if Ascii.eqb x c then true else containsByte c s'
  end.

(** [strings.Count(s, string(c))] for a one-byte separator. *)
Fixpoint countByte (c : ascii) (s : string) : nat :=
  match s with
  | EmptyString => 0
  | String x s' => (if Ascii.eqb x c then 1 else 0) + countByte c s'
  end.

(** [m := strings.Index(s, sep)] for a one-byte [sep], returned as the two
    slices [s[:m]] and [s[m+len(sep):]]; [None] stands for [m < 0]. *)
Fixpoint cut (sep : ascii) (s : string) : option (string * string) :=
  match s with
  | EmptyString => None
  | String x s' =>
      if Ascii.eqb x sep then Some (EmptyString, s')
      else match cut sep s' with
           | Some (a, b) => Some (String x a, b)
           | None => None
           end
  end.

(** The loop of [strings.genSplit]: at most [k] more cuts, the rest of the
    string is the last part. *)
Fixpoint splitLoop (sep : ascii) (k : nat) (s : string) : list string :=
  match k with
  | 0 => [s]
  | S k' =>
      match cut sep s with
      | None => [s]
      | Some (a, rest) => a :: splitLoop sep k' rest
      end
  end.

(** [strings.SplitN(s, sep, n)] for a one-byte separator and [n >= 0]:
    [n = 0] gives nil, otherwise at most [n] parts, the last one being the
    unsplit remainder. *)
Definition SplitN (s : string) (sep : ascii) (n : nat) : list string :=
  match n with
  | 0 => []
  | S k => splitLoop sep k s
  end.

(** [strings.Join(elems, sep)] *)
Fixpoint Join (elems : list string) (sep : string) : string :=
  match elems with
  | [] => EmptyString
  | [e] => e
  | e :: rest => e ++ sep ++ Join rest sep
  end.

(** [strings.Contains(s, substr)] *)
Fixpoint Contains (s substr : string) : bool :=
  if String.prefix substr s then true
  else match s with
       | EmptyString => false
       | String _ s' => Contains s' substr
       end.

End GoStrings.

(** ** Go library: path/filepath on Unix ([Separator] is '/', no volume names) *)

Module Filepath.

Definition Separator : ascii := "/"%char.

Definition IsPathSeparator (c : ascii) : bool := Ascii.eqb c Separator.

(** The path elements of a path: the pieces between separators.  The list is
    never empty; a path that ends in a separator has an empty last element. *)
Fixpoint elements (path : string) : list string :=
  match path with
  | EmptyString => [EmptyString]
  | String c rest =>
      if IsPathSeparator c then EmptyString :: elements rest
      else match elements rest with
           | e :: es => String c e :: es
           | [] => [String c EmptyString]
           end
  end.

(** The element after the last separator (the whole path when there is no
    separator). *)
Definition lastElement (path : string) : string :=
  last (elements path) EmptyString.

(** Output buffer of [Clean], element by element: [dotdot] counts the
    leading [..] elements that can no longer be removed (never positive for
    a rooted path), [kept] holds the real elements written after them, the
    most recent first. *)
Record cleanBuf : Type := mkBuf { dotdot : nat; kept : list string }.

(** One turn of the scanning loop of [Clean], on the next path element:
    an empty element and [.] are skipped; [..] removes the last real
    element written, or is itself written when there is none and the path
    is not rooted, or is dropped at the root; any other element is
    written. *)
Definition cleanStep (rooted : bool) (out : cleanBuf) (e : string) : cleanBuf :=
  if String.eqb e "" then out
  else if String.eqb e "." then out
  else if String.eqb e ".." then
    match kept out with
    | _ :: k => mkBuf (dotdot out) k
    | [] => if rooted then out else mkBuf (S (dotdot out)) []
    end
  else mkBuf (dotdot out) (e :: kept out).

(** What the buffer holds, without the leading separator of a rooted path. *)
Definition written (out : cleanBuf) : list string :=
  repeat ".." (dotdot out) ++ rev (kept out).

(** [filepath.Clean(path)] *)
Definition Clean (path : string) : string :=
  match path with
  | EmptyString => "."
  | String c _ =>
      let rooted := IsPathSeparator c in
      let out := fold_left (cleanStep rooted) (elements path) (mkBuf 0 []) in
      if rooted then String Separator (GoStrings.Join (written out) "/")
      else match written out with
           | [] => "."
           | w => GoStrings.Join w "/"
           end
  end.

(** [filepath.Join(elem...)]: empty leading elements are ignored, the rest is
    joined with separators and cleaned. *)
Fixpoint Join (elem : list string) : string :=
  match elem with
  | [] => EmptyString
  | e :: rest =>
      if String.eqb e "" then Join rest
      else Clean (GoStrings.Join elem "/")
  end.

(** The first loop of [Base]: strip trailing separators. *)
Fixpoint stripTrailing (path : string) : string :=
  match path with
  | EmptyString => EmptyString
  | String c rest =>
      match stripTrailing rest with
      | EmptyString => if IsPathSeparator c then EmptyString else String c EmptyString
      | t => String c t
      end
  end.

(** [filepath.Base(path)] *)
Definition Base (path : string) : string :=
  match path with
  | EmptyString => "."
  | _ =>
      match lastElement (stripTrailing path) with
      | EmptyString => String Separator EmptyString
      | e => e
      end
  end.

(** An element that [Clean] copies: not empty, not [.] and not [..]. *)
Definition realElement (e : string) : Prop :=
  e <> "" /\ e <> "." /\ e <> "..".

(** No separator in a string: it is one path element. *)
Definition noSlash (s : string) : Prop := GoStrings.containsByte Separator s = false.

(** What [Clean] keeps in its buffer: real elements only, and no leading
    [..] when the path is rooted. *)
Definition tidy (rooted : bool) (out : cleanBuf) : Prop :=
  Forall (fun e => realElement e /\ noSlash e) (kept out) /\
  (rooted = true -> dotdot out = 0).

End Filepath.

(** ** Go library: errors *)

Module GoErrors.

(** Go error values.  The three sentinels are compared by identity in Go
    ([err == io.EOF]); an error made by [errors.New] or [fmt.Errorf], or any
    other error the rpc layer hands back, is never identical to a sentinel,
    whatever its text. *)
Inductive error : Type :=
| ErrShutdown                  (* rpc.ErrShutdown *)
| ErrUnexpectedEOF             (* io.ErrUnexpectedEOF *)
| EOF                          (* io.EOF *)
| errorString (s : string)     (* errors.New(s) *)
| otherError (text : string).  (* any other error, with the text of its Error() *)

(** The [Error()] method. *)
Definition Error (e : error) : string :=
  match e with
  | ErrShutdown => "connection is shut down"
  | ErrUnexpectedEOF => "unexpected EOF"
  | EOF => "EOF"
  | errorString s => s
  | otherError text => text
  end.

(** [errors.New] *)
Definition New (text : string) : error := errorString text.

End GoErrors.

(** ** Go library: fmt with a format and no operands

    [fmt.Errorf(msg)] hands [msg] to [doPrintf] as the format, with an empty
    operand list.  This is [doPrintf] for that case: [argNum] stays 0 and
    [len(a)] is 0, so no operand is ever printed; what remains is the parsing
    of each directive and the diagnostics written for it. *)

Module Fmt.

Definition byteIn (lo hi : nat) (c : ascii) : bool :=
  (Nat.leb lo (nat_of_ascii c)) && (Nat.leb (nat_of_ascii c) hi).

(** [format[i] == c], false at the end of the format. *)
Definition headIs (c : ascii) (s : string) : bool :=
  match s with
  | String x _ => Ascii.eqb x c
  | EmptyString => false
  end.

(** [format[i+1:]] *)
Definition tail (s : string) : string :=
  match s with
  | String _ t => t
  | EmptyString => EmptyString
  end.

Definition isFlag (c : ascii) : bool :=
  Ascii.eqb c "#" || Ascii.eqb c "0" || Ascii.eqb c "+" || Ascii.eqb c "-" || Ascii.eqb c " ".

(** The [simpleFormat] loop: flags are consumed; with no operand left the
    fast path for a lower-case verb is never taken. *)
Fixpoint skipFlags (s : string) : string :=
  match s with
  | String c s' => if isFlag c then skipFlags s' else s
  | EmptyString => s
  end.

Definition isDigit (c : ascii) : bool := byteIn 48 57 c.

(** [tooLarge] *)
Definition tooLarge (x : N) : bool := N.ltb 1000000 x.

(** The loop of [parsenum] over the bytes [s[start:end]]: the number read,
    whether there was one, and what is left of [s[start:end]].  On overflow
    the result is [(0, false, end)]. *)
Fixpoint parsenumLoop (num : N) (isnum : bool) (s : string) : N * bool * string :=
  match s with
  | EmptyString => (num, isnum, EmptyString)
  | String c s' =>
      if isDigit c then
        if tooLarge num then (0%N, false, EmptyString)
        else parsenumLoop (num * 10 + (N_of_ascii c - 48))%N true s'
      else (num, isnum, s)
  end.

(** [parsenum(s, start, end)], given [s[start:end]]. *)
Definition parsenum (s : string) : N * bool * string := parsenumLoop 0%N false s.

(** [parseArgNumber(format)] for a [format] that starts with '[': whether the
    index is well formed, and [format[wid:]].  The index itself is not
    needed: with no operands it is never in range. *)
Definition parseArgNumber (format : string) : bool * string :=
  match format with
  | EmptyString => (false, EmptyString)
  | String _ afterBracket =>
      if Nat.ltb (String.length format) 3 then (false, afterBracket)
      else match GoStrings.cut "]" afterBracket with
           | None => (false, afterBracket)
           | Some (inner, rest) =>
               let '(_, ok, unread) := parsenum inner in
               (ok && String.eqb unread "", rest)
           end
  end.

(** [argNumber(argNum, format, i, 0)] on [format[i:]]: the new [format[i:]],
    [found], and the new [goodArgNum]. *)
Definition argNumber (s : string) (goodArgNum : bool) : string * bool * bool :=
  if headIs "[" s then
    let '(ok, rest) := parseArgNumber s in (rest, ok, false)
  else (s, false, goodArgNum).

(** The verb: [utf8.DecodeRuneInString] followed by [WriteRune], as the bytes
    written and the rest of the format.  A well-formed encoding is written
    back unchanged; a byte that starts none is consumed alone and written as
    U+FFFD. *)
Definition runeError : string :=
  String (ascii_of_nat 239) (String (ascii_of_nat 191) (String (ascii_of_nat 189) EmptyString)).

Definition continuation (c : ascii) : bool := byteIn 128 191 c.

Definition decodeVerb (s : string) : string * string :=
  match s with
  | EmptyString => (runeError, EmptyString)
  | String s0 rest =>
      if byteIn 0 127 s0 then (String s0 EmptyString, rest)
      else
        let bad := (runeError, rest) in
        (* size and accepted range of the second byte, after the table [first] *)
        let shape :=
          if byteIn 194 223 s0 then Some (2, 128, 191)
          else if byteIn 224 224 s0 then Some (3, 160, 191)
          else if byteIn 225 236 s0 then Some (3, 128, 191)
          else if byteIn 237 237 s0 then Some (3, 128, 159)
          else if byteIn 238 239 s0 then Some (3, 128, 191)
          else if byteIn 240 240 s0 then Some (4, 144, 191)
          else if byteIn 241 243 s0 then Some (4, 128, 191)
          else if byteIn 244 244 s0 then Some (4, 128, 143)
          else None in
        match shape with
        | None => bad
        | Some (sz, lo, hi) =>
            if Nat.ltb (String.length s) sz then bad
            else match rest with
                 | String s1 r1 =>
                     if negb (byteIn lo hi s1) then bad
                     else if Nat.leb sz 2 then (String s0 (String s1 EmptyString), r1)
                     else match r1 with
                          | String s2 r2 =>
                              if negb (continuation s2) then bad
                              else if Nat.leb sz 3 then
                                (String s0 (String s1 (String s2 EmptyString)), r2)
                              else match r2 with
                                   | String s3 r3 =>
                                       if negb (continuation s3) then bad
                                       else (String s0 (String s1 (String s2 (String s3 EmptyString))), r3)
                                   | EmptyString => bad
                                   end
                          | EmptyString => bad
                          end
                 | EmptyString => bad
                 end
        end
  end.

(** One directive, given the format after its '%': what is written, and the
    rest of the format, or [None] when the format ends inside the directive
    (the loop stops after writing [%!(NOVERB)]). *)
Definition directive (s : string) : string * option string :=
  let s := skipFlags s in
  let '(s, afterIndex, good) := argNumber s true in
  (* width *)
  let '(out, s, afterIndex, good) :=
    if headIs "*" s then ("%!(BADWIDTH)", tail s, false, good)
    else let '(_, widPresent, s') := parsenum s in
         ("", s', afterIndex, if afterIndex && widPresent then false else good) in
  (* precision: [i+1 < end && format[i] == '.'] *)
  let '(out, s, afterIndex, good) :=
    if headIs "." s && negb (String.eqb (tail s) "") then
      let good := if afterIndex then false else good in
      let '(t, afterIndex, good) := argNumber (tail s) good in
      if headIs "*" t then ((out ++ "%!(BADPREC)")%string, tail t, false, good)
      else let '(_, _, t') := parsenum t in (out, t', afterIndex, good)
    else (out, s, afterIndex, good) in
  let '(s, afterIndex, good) :=
    if afterIndex then (s, afterIndex, good) else argNumber s good in
  if String.eqb s "" then ((out ++ "%!(NOVERB)")%string, None)
  else
    let '(verb, rest) := decodeVerb s in
    if String.eqb verb "%" then ((out ++ "%")%string, Some rest)
    else if negb good then ((out ++ "%!" ++ verb ++ "(BADINDEX)")%string, Some rest)
    else ((out ++ "%!" ++ verb ++ "(MISSING)")%string, Some rest).

(** The [formatLoop] of [doPrintf]: bytes up to the next '%' are copied, then
    one directive is processed.  Every turn consumes at least one byte of
    the format, so [fuel] above its length is never used up. *)
Fixpoint formatLoop (fuel : nat) (format : string) : string :=
  match fuel with
  | 0 => EmptyString
  | S fuel' =>
      match format with
      | EmptyString => EmptyString
      | String c rest =>
          if Ascii.eqb c "%" then
            match directive rest with
            | (out, Some rest') => (out ++ formatLoop fuel' rest')%string
            | (out, None) => out
            end
          else String c (formatLoop fuel' rest)
      end
  end.

(** [fmt.Sprintf(format)] with no operands. *)
Definition Sprintf0 (format : string) : string :=
  formatLoop (S (String.length format)) format.

(** [fmt.Errorf(format)] with no operands: [errors.New(Sprintf(format))]. *)
Definition Errorf0 (format : string) : GoErrors.error :=
  GoErrors.New (Sprintf0 format).

End Fmt.


(** ** Package api: the domain reference *)

Module api.

(** Modelled from the spec: [api.Domain] and [api.NewDomainReferenceFromName]
    are declared in [pkg/virt-launcher/virtwrap/api], which is not among the
    sources.  The spec's data model gives the identity a domain reference
    carries: "WorkloadIdentity: {namespace: string, name: string}". *)
Record Domain : Type := mkDomain { Namespace : string; Name : string }.

(** [&api.Domain{}] *)
Definition zeroDomain : Domain := mkDomain "" "".

Definition NewDomainReferenceFromName (namespace name : string) : Domain :=
  mkDomain namespace name.

End api.

(** ** Package cmdclient *)

Module cmdclient.

Import GoErrors.

(** The filesystem primitives [ListAllSockets] calls.  [diskutils.FileExists]
    lives in [pkg/ephemeral-disk-utils], which is not among the sources, and
    [ioutil.ReadDir] reads the disk: both are taken as given.  [ReadDir]
    yields the [Name()] of each entry. *)
Record FileSystem : Type := mkFS {
  FileExists : string -> bool * option error;
  ReadDir : string -> list string * option error
}.

(** The names [ReadDir] can yield: a directory entry is one path element,
    and neither empty nor [.] nor [..]. *)
Definition entryName (file : string) : Prop :=
  Filepath.realElement file /\ Filepath.noSlash file.

Definition ListAllSockets (fs : FileSystem) (baseDir : string) : list string * option error :=
  let socketFiles : list string := [] in
  let fileDir := Filepath.Join [baseDir; "sockets"] in
  let '(exists_, err) := FileExists fs fileDir in
  match err with
  | Some e => ([], Some e)
  | None =>
      if Bool.eqb exists_ false then (socketFiles, None)
      else
        let '(files, err) := ReadDir fs fileDir in
        match err with
        | Some e => ([], Some e)
        | None =>
            (fold_left (fun socketFiles file => socketFiles ++ [Filepath.Join [fileDir; file]])
                       files socketFiles, None)
        end
  end.

Definition SocketsDirectory (baseDir : string) : string :=
  Filepath.Join [baseDir; "sockets"].

Definition SocketFromNamespaceName (baseDir namespace name : string) : string :=
  let sockFile := (namespace ++ "_" ++ name ++ "_sock")%string in
  Filepath.Join [SocketsDirectory baseDir; sockFile].

(** [fmt.Sprintf("malformed domain socket %s", socketPath)]: the verb [%s]
    writes a string operand as it is. *)
Definition DomainFromSocketPath (socketPath : string) : option api.Domain * option error :=
  let splitName := GoStrings.SplitN (Filepath.Base socketPath) "_" 3 in
  if negb (Nat.eqb (List.length splitName) 3) then
    (None, Some (New ("malformed domain socket " ++ socketPath)))
  else
    let namespace := nth 0 splitName "" in
    let name := nth 1 splitName "" in
    let domain := api.NewDomainReferenceFromName namespace name in
    (Some domain, None).

(** The byte that separates namespace, name and suffix in a socket file
    name, and the strings free of it. *)
Definition separator : ascii := "_"%char.

Definition noSeparator (s : string) : Prop := GoStrings.containsByte separator s = false.

Definition IsDisconnected (err : option error) : bool :=
  match err with
  | Some ErrShutdown | Some ErrUnexpectedEOF | Some EOF => true
  | _ => false
  end.

Record Reply : Type := mkReply {
  Success : bool;
  Message : string;
  Domain : option api.Domain
}.

(** [&Reply{}] *)
Definition emptyReply : Reply := mkReply false "" None.

Section Dispatcher.

(** [v1.VirtualMachine] ([pkg/api/v1], not among the sources) and
    [map[string]*k8sv1.Secret] are only passed through. *)
Context {VirtualMachine SecretMap : Type}.

Record Args : Type := mkArgs {
  (* used for domain management *)
  VM : option VirtualMachine;
  K8Secrets : option SecretMap;     (* [None] is the nil map *)
  (* used for syncing secrets *)
  SecretUsageType : string;
  SecretUsageID : string;
  SecretValue : string
}.

(** [&Args{}] *)
Definition emptyArgs : Args := mkArgs None None "" "" "".

(** One request on the wire: the service method and its arguments. *)
Record Request : Type := mkRequest { ServiceMethod : string; Payload : Args }.

(** [*rpc.Client]: the connection with everything behind it, and the
    requests sent over it so far.  [peer] is what a call comes back with (the
    reply as decoded into the reply value handed in, and the error), given
    the earlier requests and the current one. *)
Record rpcClient : Type := mkRpcClient {
  peer : list Request -> Request -> Reply -> Reply * option error;
  sent : list Request
}.

(** [client.Call(serviceMethod, args, reply)] *)
Definition Call (client : rpcClient) (serviceMethod : string) (args : Args) (reply : Reply)
  : rpcClient * (Reply * option error) :=
  let request := mkRequest serviceMethod args in
  (mkRpcClient (peer client) (sent client ++ [request]),
   peer client (sent client) request reply).

Record VirtLauncherClient : Type := mkClient { client : rpcClient }.

(** What the connection of [c] comes back with when [cmd] is called next
    with [args] and a fresh reply value. *)
Definition answer (c : VirtLauncherClient) (cmd : string) (args : Args)
  : Reply * option error :=
  peer (client c) (sent (client c)) (mkRequest cmd args) emptyReply.

(** Both messages are built by [fmt.Sprintf] with [%s] verbs and string
    operands, then handed to [fmt.Errorf] as its format. *)
Definition genericSendCmd (c : VirtLauncherClient) (args : Args) (cmd : string)
  : VirtLauncherClient * (Reply * option error) :=
  let reply := emptyReply in
  let '(conn, (reply, err)) := Call (client c) cmd args reply in
  let c := mkClient conn in
  if IsDisconnected err then (c, (reply, err))
  else match err with
       | Some e =>
           let msg := ("unknown error encountered sending command " ++ cmd ++ ": " ++ Error e)%string in
           (c, (reply, Some (Fmt.Errorf0 msg)))
       | None =>
           if negb (Bool.eqb (Success reply) true) then
             let msg := ("server error. command " ++ cmd ++ " failed: " ++ Message reply)%string in
             (c, (reply, Some (Fmt.Errorf0 msg)))
           else (c, (reply, None))
       end.

Definition ShutdownVirtualMachine (c : VirtLauncherClient) (vm : option VirtualMachine)
  : VirtLauncherClient * option error :=
  let cmd := "Launcher.Shutdown" in
  let args := mkArgs vm None "" "" "" in
  let '(c, (_, err)) := genericSendCmd c args cmd in
  (c, err).

Definition KillVirtualMachine (c : VirtLauncherClient) (vm : option VirtualMachine)
  : VirtLauncherClient * option error :=
  let cmd := "Launcher.Kill" in
  let args := mkArgs vm None "" "" "" in
  let '(c, (_, err)) := genericSendCmd c args cmd in
  (c, err).

Definition GetDomain (c : VirtLauncherClient)
  : VirtLauncherClient * (option api.Domain * bool * option error) :=
  let domain := Some api.zeroDomain in
  let cmd := "Launcher.GetDomain" in
  let exists_ := false in
  let args := emptyArgs in
  let '(c, (reply, err)) := genericSendCmd c args cmd in
  match err with
  | Some e => (c, (None, exists_, Some e))
  | None =>
      match Domain reply with
      | Some d => (c, (Some d, true, None))
      | None => (c, (domain, exists_, None))
      end
  end.

Definition SyncVirtualMachine (c : VirtLauncherClient) (vm : option VirtualMachine)
  (secrets : option SecretMap) : VirtLauncherClient * option error :=
  let cmd := "Launcher.Sync" in
  let args := mkArgs vm secrets "" "" "" in
  let '(c, (_, err)) := genericSendCmd c args cmd in
  (c, err).

Definition SyncSecret (c : VirtLauncherClient) (vm : option VirtualMachine)
  (usageType usageID secretValue : string) : VirtLauncherClient * option error :=
  let cmd := "Launcher.SyncSecret" in
  let args := mkArgs vm None usageType usageID secretValue in
  let '(c, (_, err)) := genericSendCmd c args cmd in
  (c, err).

Definition Ping (c : VirtLauncherClient) : VirtLauncherClient * option error :=
  let cmd := "Launcher.Ping" in
  let args := emptyArgs in
  let '(c, (_, err)) := genericSendCmd c args cmd in
  (c, err).

(** The requests [c] has sent. *)
Definition wire (c : VirtLauncherClient) : list Request := sent (client c).

End Dispatcher.

Arguments Args : clear implicits.
Arguments Request : clear implicits.
Arguments rpcClient : clear implicits.
Arguments VirtLauncherClient : clear implicits.

End cmdclient.

(** ** Scenarios the statements below are tried on *)

Module scenarios.

Import GoErrors cmdclient.

(** A base directory without sockets directory, and one whose sockets
    directory cannot be examined. *)
Definition noSocketsYet : FileSystem :=
  mkFS (fun _ => (false, None)) (fun _ => ([], Some (otherError "no such file or directory"))).

Definition unreadable : FileSystem :=
  mkFS (fun _ => (false, Some (otherError "permission denied"))) (fun _ => ([], None)).

(** A sockets directory with the sockets of two workloads. *)
Definition twoSockets : FileSystem :=
  mkFS (fun _ => (true, None)) (fun _ => (["default_vm1_sock"; "kube-system_vm2_sock"], None)).

(** A fresh connection to a peer that answers every request the same way. *)
Definition scripted (reply : Reply) (err : option error) : VirtLauncherClient unit unit :=
  mkClient (mkRpcClient (fun _ _ _ => (reply, err)) []).

(** The peer went away during the call; the reply value was left as it was. *)
Definition hungUp : VirtLauncherClient unit unit := scripted emptyReply (Some ErrUnexpectedEOF).

(** A peer that turns the request down with a message. *)
Definition refusing (message : string) : VirtLauncherClient unit unit :=
  scripted (mkReply false message None) None.

(** A call that fails with [err] although the reply value says [Success]. *)
Definition failing (err : error) : VirtLauncherClient unit unit :=
  scripted (mkReply true "" None) (Some err).

(** A peer that turns the request down and still reports a domain. *)
Definition refusingWithDomain : VirtLauncherClient unit unit :=
  scripted (mkReply false "domain is shutting down" (Some (api.mkDomain "default" "vm1"))) None.

(** A peer that accepts, with or without a domain to report. *)
Definition accepting (domain : option api.Domain) : VirtLauncherClient unit unit :=
  scripted (mkReply true "" domain) None.

End scenarios.

(** * Checks of the library models on known values *)

Example Clean_samples :
  map Filepath.Clean
    ["abc//def//ghi"; "abc/./../def"; "../../abc"; "/../abc";
     "abc/../../././../def"; ""; "/"; "abc/"; "//abc"; ".."; "abc/def/../../..";
     "/abc/def/../../.."; "abc/def/../ghi/../jkl"; "a/b/c"; "/.."; "./"]
  = ["abc/def/ghi"; "def"; "../../abc"; "/abc";
     "../../def"; "."; "/"; "abc"; "/abc"; ".."; "..";
     "/"; "abc/jkl"; "a/b/c"; "/"; "."].
Proof. reflexivity. Qed.

Example Base_samples :
  map Filepath.Base [""; "."; "/."; "/"; "////"; "x/"; "abc"; "abc/def"; "a/b/.x"; "a/b/c."; "a/b/c.x"]
  = ["."; "."; "."; "/"; "/"; "x"; "abc"; "def"; ".x"; "c."; "c.x"].
Proof. reflexivity. Qed.

Example Join_samples :
  map Filepath.Join [[]; [""]; ["a"]; ["a"; "b"]; ["a"; ""]; [""; "b"]; ["/"; "a"]; ["a/"; "b"]; ["a"; "../b"]; [""; ""]]
  = [""; ""; "a"; "a/b"; "a"; "b"; "/a"; "a/b"; "b"; ""].
Proof. reflexivity. Qed.

Example SplitN_samples :
  map (fun s => GoStrings.SplitN s "_" 3) ["a_b_c_d"; "a_b"; ""; "__"; "abc"; "_sock"]
  = [["a"; "b"; "c_d"]; ["a"; "b"]; [""]; [""; ""; ""]; ["abc"]; [""; "sock"]].
Proof. reflexivity. Qed.

Example Sprintf0_samples :
  map Fmt.Sprintf0
    ["plain"; "100%"; "a%%b"; "a%2Fb"; "%d items"; "%[1]d"; "%*d"; "%.*d"; "%-5.2f|"; "%[x]d"; "%!"; "% "; "%.";
     "%[2]*[1]d"; "%.0"; "%12345678d"; "%["; "%[]"; "%[1"; "%3[1]d"; "%[1]3d"; "%[1].2d"]
  = ["plain"; "100%!(NOVERB)"; "a%b"; "a%!F(MISSING)b"; "%!d(MISSING) items"; "%!d(BADINDEX)";
     "%!(BADWIDTH)%!d(MISSING)"; "%!(BADPREC)%!d(MISSING)"; "%!f(MISSING)|"; "%!d(BADINDEX)"; "%!!(MISSING)";
     "%!(NOVERB)"; "%!.(MISSING)";
     "%!(BADWIDTH)%!d(BADINDEX)"; "%!(NOVERB)"; "%!(NOVERB)"; "%!(NOVERB)"; "%!](BADINDEX)"; "%!(NOVERB)";
     "%!d(BADINDEX)"; "%!d(BADINDEX)"; "%!d(BADINDEX)"].
Proof. vm_compute. reflexivity. Qed.

(** * Facts about the library models *)

Section StringFacts.

Import GoStrings.

Lemma append_empty_r (s : string) : (s ++ "")%string = s.
Proof. induction s as [|c s IH]; simpl; [reflexivity | now rewrite IH]. Qed.

Lemma append_assoc (a b c : string) : ((a ++ b) ++ c)%string = (a ++ b ++ c)%string.
Proof. induction a as [|x a IH]; simpl; [reflexivity | now rewrite IH]. Qed.

Lemma containsByte_app (c : ascii) (a b : string) :
  containsByte c (a ++ b) = containsByte c a || containsByte c b.
Proof.
  induction a as [|x a IH]; simpl; [reflexivity|].
  destruct (Ascii.eqb x c); [reflexivity | exact IH].
Qed.

Lemma countByte_app (c : ascii) (a b : string) :
  countByte c (a ++ b) = countByte c a + countByte c b.
Proof.
  induction a as [|x a IH]; simpl; [reflexivity|].
  rewrite IH. lia.
Qed.

Lemma countByte_zero (c : ascii) (s : string) :
  countByte c s = 0 <-> containsByte c s = false.
Proof.
  induction s as [|x s IH]; simpl; [tauto|].
  destruct (Ascii.eqb x c); simpl; [split; discriminate | exact IH].
Qed.

(** Cutting at the first separator: the part before it holds none. *)
Lemma cut_app (sep : ascii) (a b : string) :
  containsByte sep a = false ->
  cut sep (a ++ String sep b) = Some (a, b).
Proof.
  induction a as [|x a IH]; simpl; intros H.
  - now rewrite Ascii.eqb_refl.
  - destruct (Ascii.eqb x sep); [discriminate|].
    now rewrite (IH H).
Qed.

Lemma cut_none (sep : ascii) (s : string) :
  cut sep s = None <-> containsByte sep s = false.
Proof.
  induction s as [|x s IH]; simpl; [tauto|].
  destruct (Ascii.eqb x sep); [split; discriminate|].
  destruct (cut sep s) as [[a b]|].
  - split; [discriminate|]. intros H. apply IH in H. discriminate.
  - split; [intros _; now apply IH | reflexivity].
Qed.

Lemma cut_some (sep : ascii) (s a b : string) :
  cut sep s = Some (a, b) ->
  s = (a ++ String sep b)%string /\ containsByte sep a = false.
Proof.
  revert a b. induction s as [|x s IH]; simpl; intros a b H; [discriminate|].
  destruct (Ascii.eqb_spec x sep) as [->|Hx].
  - injection H as <- <-. now split.
  - destruct (cut sep s) as [[a' b']|]; [|discriminate].
    injection H as <- <-. destruct (IH a' b' eq_refl) as [-> Ha].
    split; [reflexivity|]. simpl.
    destruct (Ascii.eqb_spec x sep); [contradiction | exact Ha].
Qed.

(** The number of parts of [SplitN]: one more than the number of
    separators, capped by [n]. *)
Lemma splitLoop_length (sep : ascii) (k : nat) (s : string) :
  List.length (splitLoop sep k s) = S (Nat.min k (countByte sep s)).
Proof.
  revert s. induction k as [|k IH]; intros s; simpl; [reflexivity|].
  destruct (cut sep s) as [[a b]|] eqn:E.
  - apply cut_some in E as [-> Ha]. simpl. rewrite IH, countByte_app. simpl.
    rewrite Ascii.eqb_refl. apply countByte_zero in Ha. rewrite Ha. reflexivity.
  - apply cut_none, countByte_zero in E. rewrite E. reflexivity.
Qed.

Lemma SplitN_length (s : string) (sep : ascii) (n : nat) :
  List.length (SplitN s sep n) = Nat.min n (S (countByte sep s)).
Proof.
  destruct n as [|k]; simpl; [reflexivity | apply splitLoop_length].
Qed.

(** A string with at least two separators splits in three at the first
    two. *)
Lemma SplitN3_two (sep : ascii) (a b rest : string) :
  containsByte sep a = false -> containsByte sep b = false ->
  SplitN (a ++ String sep (b ++ String sep rest)) sep 3 = [a; b; rest].
Proof.
  intros Ha Hb. simpl. rewrite (cut_app sep a _ Ha), (cut_app sep b _ Hb). reflexivity.
Qed.

Lemma two_separators (sep : ascii) (s : string) :
  2 <= countByte sep s ->
  exists a b rest, s = (a ++ String sep (b ++ String sep rest))%string
                   /\ containsByte sep a = false /\ containsByte sep b = false.
Proof.
  intros H.
  destruct (cut sep s) as [[a s1]|] eqn:E1.
  2:{ apply cut_none, countByte_zero in E1. lia. }
  apply cut_some in E1 as [-> Ha].
  rewrite countByte_app in H. simpl in H. rewrite Ascii.eqb_refl in H.
  pose proof (proj2 (countByte_zero sep a) Ha) as Ha0.
  destruct (cut sep s1) as [[b rest]|] eqn:E2.
  2:{ apply cut_none, countByte_zero in E2. lia. }
  apply cut_some in E2 as [-> Hb].
  now exists a, b, rest.
Qed.

End StringFacts.

Section PathFacts.

Import GoStrings Filepath.

Lemma realElement_of_byte (c : ascii) (e : string) :
  c <> "."%char -> containsByte c e = true -> realElement e.
Proof.
  intros Hc H. repeat split; intros ->; cbn [containsByte] in H;
    try discriminate;
    destruct (Ascii.eqb_spec "."%char c) as [E|_];
    (discriminate H || (apply Hc; now rewrite <- E)).
Qed.

Lemma elements_not_nil (p : string) : elements p <> [].
Proof.
  destruct p as [|c p]; simpl; [discriminate|].
  destruct (IsPathSeparator c); [discriminate|].
  destruct (elements p); discriminate.
Qed.

Lemma elements_noSlash (f : string) : noSlash f -> elements f = [f].
Proof.
  unfold noSlash, Separator. induction f as [|c f IH]; simpl; [reflexivity|].
  unfold IsPathSeparator, Separator.
  destruct (Ascii.eqb c "/"); [discriminate|].
  intros H. now rewrite (IH H).
Qed.

Lemma elements_all_noSlash (p : string) : Forall noSlash (elements p).
Proof.
  induction p as [|c p IH]; simpl.
  - repeat constructor.
  - unfold IsPathSeparator, Separator.
    destruct (Ascii.eqb c "/") eqn:E.
    + constructor; [reflexivity | exact IH].
    + destruct (elements p) as [|e es]; inversion IH; subst.
      * repeat constructor. unfold noSlash, Separator. simpl. now rewrite E.
      * constructor; [|assumption]. unfold noSlash, Separator in *. simpl. now rewrite E.
Qed.

(** A separator starts a new element. *)
Lemma elements_app_sep (a b : string) :
  elements (a ++ String "/" b) = elements a ++ elements b.
Proof.
  induction a as [|c a IH]; simpl; [reflexivity|].
  destruct (IsPathSeparator c); rewrite IH; [reflexivity|].
  pose proof (elements_not_nil a).
  destruct (elements a); [contradiction | reflexivity].
Qed.

(** Bytes other than the separator extend the last element. *)
Lemma elements_app_noSlash (a b : string) :
  noSlash b ->
  elements (a ++ b) = removelast (elements a) ++ [(lastElement a ++ b)%string].
Proof.
  intros Hb. unfold lastElement. induction a as [|c a IH].
  - simpl. now apply elements_noSlash.
  - cbn [append elements]. rewrite IH.
    pose proof (elements_not_nil a) as Hne.
    destruct (IsPathSeparator c).
    + destruct (elements a) as [|e es]; [contradiction | reflexivity].
    + destruct (elements a) as [|e es]; [contradiction|].
      destruct es as [|e' es]; reflexivity.
Qed.

Lemma lastElement_app_noSlash (a b : string) :
  noSlash b -> lastElement (a ++ b) = (lastElement a ++ b)%string.
Proof.
  intros Hb. unfold lastElement at 1. rewrite (elements_app_noSlash a b Hb).
  apply last_last.
Qed.

Lemma lastElement_noSlash (f : string) : noSlash f -> lastElement f = f.
Proof. intros H. unfold lastElement. now rewrite (elements_noSlash f H). Qed.

Lemma lastElement_app_sep (a b : string) :
  lastElement (a ++ String "/" b) = lastElement b.
Proof.
  unfold lastElement. rewrite elements_app_sep.
  pose proof (elements_not_nil b).
  destruct (elements b) as [|e es] using rev_ind; [contradiction|].
  now rewrite app_assoc, !last_last.
Qed.

Lemma lastElement_is_noSlash (p : string) : noSlash (lastElement p).
Proof.
  unfold lastElement. pose proof (elements_all_noSlash p) as H.
  pose proof (elements_not_nil p) as Hne.
  destruct (elements p) as [|e es] using rev_ind; [contradiction|].
  rewrite last_last. apply Forall_app in H as [_ H]. now inversion H.
Qed.

Lemma elements_split_last (p : string) :
  elements p = removelast (elements p) ++ [lastElement p].
Proof. apply app_removelast_last, elements_not_nil. Qed.

(** Nothing is stripped from a path that ends in another byte. *)
Lemma stripTrailing_noSlash (f : string) : noSlash f -> stripTrailing f = f.
Proof.
  unfold noSlash, Separator. induction f as [|c f IH]; simpl; [reflexivity|].
  unfold IsPathSeparator, Separator.
  destruct (Ascii.eqb c "/"); [discriminate|].
  intros H. rewrite (IH H). now destruct f.
Qed.

Lemma stripTrailing_app (x f : string) :
  noSlash f -> f <> "" -> stripTrailing (x ++ f) = (x ++ f)%string.
Proof.
  intros Hf Hne. induction x as [|c x IH]; simpl.
  - now apply stripTrailing_noSlash.
  - rewrite IH. destruct (x ++ f)%string eqn:E; [|reflexivity].
    destruct x; simpl in E; [contradiction | discriminate].
Qed.

(** [Base] of a path that ends in a non-empty element is that element. *)
Lemma Base_app (x f : string) :
  noSlash f -> f <> "" ->
  (x = "" \/ exists y, x = (y ++ "/")%string) ->
  Base (x ++ f) = f.
Proof.
  intros Hf Hne Hx. unfold Base.
  assert (Hl : lastElement (x ++ f) = f).
  { destruct Hx as [->|[y ->]].
    - now apply lastElement_noSlash.
    - rewrite append_assoc. simpl. rewrite lastElement_app_sep.
      now apply lastElement_noSlash. }
  rewrite (stripTrailing_app x f Hf Hne), Hl.
  destruct (x ++ f)%string eqn:E.
  - destruct x; simpl in E; [contradiction | discriminate].
  - destruct f; [contradiction | reflexivity].
Qed.

(** [strings.Join] of elements that end in [f]. *)
Lemma Join_snoc (l : list string) (f : string) :
  exists x, GoStrings.Join (l ++ [f]) "/" = (x ++ f)%string
            /\ (x = "" \/ exists y, x = (y ++ "/")%string).
Proof.
  induction l as [|e l IH].
  - exists "". simpl. auto.
  - destruct IH as [x [Hj Hx]].
    destruct l as [|e' l].
    + exists (e ++ "/")%string. simpl. rewrite append_assoc. split; [reflexivity|]. right. now exists e.
    + exists (e ++ "/" ++ x)%string.
      change (GoStrings.Join ((e :: e' :: l) ++ [f]) "/")
        with (e ++ "/" ++ GoStrings.Join ((e' :: l) ++ [f]) "/")%string.
      rewrite Hj. split.
      * now rewrite !append_assoc.
      * right. destruct Hx as [->|[y ->]].
        -- now exists e.
        -- exists (e ++ "/" ++ y)%string. now rewrite !append_assoc.
Qed.

Lemma cleanStep_real (rooted : bool) (out : cleanBuf) (f : string) :
  realElement f -> cleanStep rooted out f = mkBuf (dotdot out) (f :: kept out).
Proof.
  intros (H1 & H2 & H3). unfold cleanStep.
  destruct (String.eqb_spec f ""); [contradiction|].
  destruct (String.eqb_spec f "."); [contradiction|].
  destruct (String.eqb_spec f ".."); [contradiction|].
  reflexivity.
Qed.

(** The last element of a path survives [Clean] when it is a real one, and
    is then the last element of the result. *)
Lemma Base_Clean (p : string) :
  realElement (lastElement p) -> Base (Clean p) = lastElement p.
Proof.
  intros Hreal.
  pose proof (lastElement_is_noSlash p) as Hns.
  set (f := lastElement p) in *.
  assert (Hne : f <> "") by apply Hreal.
  unfold Clean. destruct p as [|c p'] eqn:Ep.
  - exfalso. apply Hne. reflexivity.
  - rewrite <- Ep. rewrite (elements_split_last p), fold_left_app. subst p. fold f.
    cbn [fold_left]. rewrite (cleanStep_real _ _ f Hreal).
    unfold written. cbn [dotdot kept rev]. rewrite app_assoc.
    destruct (Join_snoc (repeat ".." (dotdot (fold_left (cleanStep (IsPathSeparator c))
                (removelast (elements (String c p'))) (mkBuf 0 []))) ++
                rev (kept (fold_left (cleanStep (IsPathSeparator c))
                (removelast (elements (String c p'))) (mkBuf 0 [])))) f) as [x [Hj Hx]].
    destruct (IsPathSeparator c).
    + rewrite Hj.
      change (String Separator (x ++ f)) with (("/" ++ x) ++ f)%string.
      apply Base_app; [assumption | assumption|].
      right. destruct Hx as [->|[y ->]]; [now exists "" | now exists ("/" ++ y)%string].
    + match goal with |- Base (match ?l with _ => _ end) = _ =>
        destruct l eqn:El; [destruct (repeat _ _ ++ rev _); discriminate|] end.
      rewrite Hj. now apply Base_app.
Qed.

(** The same through [filepath.Join]: whatever the directory, the last
    element of the last argument is the base of the joined path. *)
Lemma Base_Join (dir file : string) :
  realElement (lastElement file) ->
  Base (Filepath.Join [dir; file]) = lastElement file.
Proof.
  intros Hreal.
  assert (Hfile : file <> "").
  { intros ->. destruct Hreal as [H _]. apply H. reflexivity. }
  cbn [Filepath.Join].
  destruct (String.eqb_spec dir "") as [->|Hd].
  - destruct (String.eqb_spec file ""); [contradiction|]. simpl GoStrings.Join.
    now apply Base_Clean.
  - cbn [GoStrings.Join].
    assert (Hl : lastElement (dir ++ "/" ++ file) = lastElement file)
      by apply lastElement_app_sep.
    rewrite <- Hl in *. now apply Base_Clean.
Qed.

End PathFacts.

Section AddressingFacts.

Import GoStrings Filepath GoErrors cmdclient.

(** A path has no separator, or splits at its last one. *)
Lemma last_separator (p : string) :
  noSlash p \/ exists a b, p = (a ++ String "/" b)%string /\ noSlash b.
Proof.
  unfold noSlash, Separator. induction p as [|c p IH]; simpl; [now left|].
  destruct (Ascii.eqb_spec c "/") as [->|Hc].
  - right. destruct IH as [H|(a & b & -> & Hb)].
    + now exists "", p.
    + now exists (String "/" a), b.
  - destruct IH as [H|(a & b & -> & Hb)]; [now left|].
    right. now exists (String c a), b.
Qed.

Lemma lastElement_contains (c : ascii) (p : string) :
  containsByte c p = false -> containsByte c (lastElement p) = false.
Proof.
  intros H. destruct (last_separator p) as [Hp|(a & b & -> & Hb)].
  - now rewrite lastElement_noSlash.
  - rewrite lastElement_app_sep, lastElement_noSlash by assumption.
    rewrite containsByte_app in H. apply orb_false_iff in H as [_ H].
    cbn [containsByte] in H. destruct (Ascii.eqb "/" c); [discriminate | exact H].
Qed.

(** The socket file of an identity is the base of its address, up to the
    directories a namespace with separators adds. *)
Lemma Base_SocketFromNamespaceName (baseDir namespace name : string) :
  noSlash name ->
  Base (SocketFromNamespaceName baseDir namespace name)
  = (lastElement namespace ++ "_" ++ name ++ "_sock")%string.
Proof.
  intros Hname. unfold SocketFromNamespaceName.
  assert (Hrest : noSlash ("_" ++ name ++ "_sock")).
  { unfold noSlash, Separator in *. cbn [append containsByte]. rewrite containsByte_app, Hname. reflexivity. }
  pose proof (lastElement_app_noSlash namespace _ Hrest) as Hl.
  rewrite Base_Join; rewrite Hl; [reflexivity|].
  apply (realElement_of_byte "_"); [discriminate|].
  rewrite containsByte_app. simpl. apply orb_true_r.
Qed.

(** Decoding the address of an identity whose name holds no path separator
    and no '_'. *)
Lemma decode_plain (baseDir namespace name : string) :
  noSeparator namespace -> noSeparator name -> noSlash name ->
  DomainFromSocketPath (SocketFromNamespaceName baseDir namespace name)
  = (Some (api.mkDomain (lastElement namespace) name), None).
Proof.
  intros Hns Hn Hs. unfold DomainFromSocketPath.
  rewrite (Base_SocketFromNamespaceName _ _ _ Hs).
  change (lastElement namespace ++ "_" ++ name ++ "_sock")%string
    with (lastElement namespace ++ String "_" (name ++ String "_" "sock"))%string.
  rewrite SplitN3_two; [reflexivity | | assumption].
  now apply lastElement_contains.
Qed.

(** Decoding the address of an identity whose name holds a '_'. *)
Lemma decode_truncated (baseDir namespace a b : string) :
  noSeparator namespace -> noSeparator a -> noSlash (a ++ String "_" b) ->
  DomainFromSocketPath (SocketFromNamespaceName baseDir namespace (a ++ String "_" b))
  = (Some (api.mkDomain (lastElement namespace) a), None).
Proof.
  intros Hns Ha Hs. unfold DomainFromSocketPath.
  rewrite (Base_SocketFromNamespaceName _ _ _ Hs).
  replace (lastElement namespace ++ "_" ++ (a ++ String "_" b) ++ "_sock")%string
    with (lastElement namespace ++ String "_" (a ++ String "_" (b ++ "_sock")))%string.
  - rewrite SplitN3_two; [reflexivity | | assumption].
    now apply lastElement_contains.
  - simpl. now rewrite append_assoc.
Qed.

End AddressingFacts.

(** * Channel addressing *)

Section Addressing.

Import GoStrings Filepath GoErrors cmdclient.

(** C1, as stated, fails: a namespace with a path separator and no '_' is
    cut at the separator by [filepath.Base]; the address of ("a/b", "vm1")
    decodes to ("b", "vm1"). *)
Lemma C1_roundtrip_lost_with_slash :
  noSeparator "a/b" /\ noSeparator "vm1" /\
  SocketFromNamespaceName "/run/x" "a/b" "vm1" = "/run/x/sockets/a/b_vm1_sock" /\
  DomainFromSocketPath (SocketFromNamespaceName "/run/x" "a/b" "vm1")
  = (Some (api.mkDomain "b" "vm1"), None) /\
  api.mkDomain "b" "vm1" <> api.mkDomain "a/b" "vm1".
Proof. repeat split; discriminate. Qed.

(** C1 (amended): for every base directory and every identity in which
    neither component contains the separator '_' nor the path separator
    '/', decoding the derived address gives back the namespace and the
    name. *)
Theorem C1_roundtrip (baseDir namespace name : string) :
  noSeparator namespace -> noSeparator name ->
  noSlash namespace -> noSlash name ->
  DomainFromSocketPath (SocketFromNamespaceName baseDir namespace name)
  = (Some (api.NewDomainReferenceFromName namespace name), None).
Proof.
  intros Hns Hn Hsns Hsn.
  rewrite decode_plain by assumption.
  now rewrite lastElement_noSlash.
Qed.

Lemma C1_roundtrip_witness :
  DomainFromSocketPath (SocketFromNamespaceName "/run/x" "default" "vm1")
  = (Some (api.NewDomainReferenceFromName "default" "vm1"), None).
Proof. apply (C1_roundtrip "/run/x" "default" "vm1"); reflexivity. Defined.

(** C3: a path whose base splits in fewer than three parts is refused with
    the malformed-socket error and no domain; a path whose base splits in
    three parts is decoded.  There is no other case: the number of parts is
    one more than the number of '_' in the base, and three at most. *)
Theorem C3_malformed_iff_short (socketPath : string) :
  let parts := SplitN (Base socketPath) "_" 3 in
  (List.length parts < 3 ->
   DomainFromSocketPath socketPath
   = (None, Some (errorString ("malformed domain socket " ++ socketPath)))) /\
  (List.length parts = 3 ->
   exists domain, DomainFromSocketPath socketPath = (Some domain, None)) /\
  List.length parts = Nat.min 3 (S (countByte separator (Base socketPath))).
Proof.
  intros parts. unfold DomainFromSocketPath. fold parts. split; [|split].
  - intros H. destruct (Nat.eqb_spec (List.length parts) 3); [lia | reflexivity].
  - intros H. rewrite H. simpl. eauto.
  - apply SplitN_length.
Qed.

Lemma C3_malformed_iff_short_witness :
  DomainFromSocketPath "/run/x/sockets/default_sock"
  = (None, Some (errorString "malformed domain socket /run/x/sockets/default_sock")) /\
  exists domain, DomainFromSocketPath "/run/x/sockets/default_vm1_sock" = (Some domain, None).
Proof.
  split.
  - apply (proj1 (C3_malformed_iff_short "/run/x/sockets/default_sock")). simpl. lia.
  - apply (proj1 (proj2 (C3_malformed_iff_short "/run/x/sockets/default_vm1_sock"))). reflexivity.
Defined.

(** C8, as stated, fails: two identities without '_' that differ by a [./]
    in front of the namespace get the same address. *)
Lemma C8_collision_with_slash :
  noSeparator "./a" /\ noSeparator "a" /\ noSeparator "b" /\
  ("./a", "b") <> ("a", "b") /\
  SocketFromNamespaceName "/run/x" "./a" "b" = SocketFromNamespaceName "/run/x" "a" "b".
Proof. repeat split; discriminate. Qed.

(** C8 (amended): the address is a function of (baseDir, namespace, name);
    identities whose components contain neither '_' nor the path separator
    '/' and that differ have different addresses, whatever the base
    directories; and "/run/x" with ("default", "vm1") gives
    "/run/x/sockets/default_vm1_sock". *)
Theorem C8_deterministic_injective :
  (forall baseDir namespace name address1 address2,
      address1 = SocketFromNamespaceName baseDir namespace name ->
      address2 = SocketFromNamespaceName baseDir namespace name ->
      address1 = address2) /\
  (forall baseDir1 baseDir2 namespace1 name1 namespace2 name2,
      noSeparator namespace1 -> noSeparator name1 -> noSlash namespace1 -> noSlash name1 ->
      noSeparator namespace2 -> noSeparator name2 -> noSlash namespace2 -> noSlash name2 ->
      (namespace1, name1) <> (namespace2, name2) ->
      SocketFromNamespaceName baseDir1 namespace1 name1
      <> SocketFromNamespaceName baseDir2 namespace2 name2) /\
  SocketsDirectory "/run/x" = "/run/x/sockets" /\
  SocketFromNamespaceName "/run/x" "default" "vm1" = "/run/x/sockets/default_vm1_sock".
Proof.
  split; [|split; [|split; reflexivity]].
  - intros; congruence.
  - intros b1 b2 ns1 n1 ns2 n2 H1 H2 H3 H4 H5 H6 H7 H8 Hne Heq.
    pose proof (decode_plain b1 ns1 n1 H1 H2 H4) as D1.
    pose proof (decode_plain b2 ns2 n2 H5 H6 H8) as D2.
    rewrite Heq, D2 in D1.
    rewrite !lastElement_noSlash in D1 by assumption.
    apply Hne. congruence.
Qed.

Lemma C8_deterministic_injective_witness :
  SocketFromNamespaceName "/run/x" "default" "vm1"
  <> SocketFromNamespaceName "/run/y" "default" "vm2".
Proof.
  apply (proj1 (proj2 C8_deterministic_injective) "/run/x" "/run/y" "default" "vm1" "default" "vm2");
    try reflexivity.
  discriminate.
Defined.

(** C9: the suffix is not checked.  A path whose base holds at least two
    '_' is decoded to the pieces before the first and between the first two,
    whatever comes after the second; "a_b_c" gives ("a", "b"). *)
Theorem C9_suffix_not_validated :
  (forall socketPath,
      2 <= countByte separator (Base socketPath) ->
      exists namespace name third,
        Base socketPath = (namespace ++ "_" ++ name ++ "_" ++ third)%string /\
        noSeparator namespace /\ noSeparator name /\
        DomainFromSocketPath socketPath
        = (Some (api.NewDomainReferenceFromName namespace name), None)) /\
  DomainFromSocketPath "a_b_c" = (Some (api.NewDomainReferenceFromName "a" "b"), None).
Proof.
  split; [|reflexivity].
  intros p H. destruct (two_separators _ _ H) as (a & b & rest & E & Ha & Hb).
  exists a, b, rest. repeat split; try assumption.
  unfold DomainFromSocketPath. rewrite E.
  unfold separator in *. rewrite SplitN3_two by assumption. reflexivity.
Qed.

Lemma C9_suffix_not_validated_witness :
  exists namespace name third,
    Base "/run/x/sockets/a_b_c_d" = (namespace ++ "_" ++ name ++ "_" ++ third)%string /\
    noSeparator namespace /\ noSeparator name /\
    DomainFromSocketPath "/run/x/sockets/a_b_c_d"
    = (Some (api.NewDomainReferenceFromName namespace name), None).
Proof.
  apply (proj1 C9_suffix_not_validated "/run/x/sockets/a_b_c_d"). simpl. lia.
Defined.

(** C10, as stated, fails: with the name "_/" the socket file is "ns__/_sock",
    its base is "_sock", and decoding is refused. *)
Lemma C10_name_with_slash_refused :
  noSeparator "ns" /\ containsByte separator "_/" = true /\
  SocketFromNamespaceName "/run/x" "ns" "_/" = "/run/x/sockets/ns__/_sock" /\
  DomainFromSocketPath (SocketFromNamespaceName "/run/x" "ns" "_/")
  = (None, Some (errorString "malformed domain socket /run/x/sockets/ns__/_sock")).
Proof. repeat split. Qed.

(** C10 (amended): when the namespace holds no '_' and the name holds a '_'
    but no path separator '/', decoding the derived address succeeds; the
    name it returns is the name cut at its first '_', and the namespace it
    returns is the last path element of the namespace (the namespace
    itself when it holds no '/'). *)
Theorem C10_name_truncated (baseDir namespace before after : string) :
  noSeparator namespace -> noSeparator before ->
  noSlash (before ++ "_" ++ after) ->
  DomainFromSocketPath (SocketFromNamespaceName baseDir namespace (before ++ "_" ++ after))
  = (Some (api.NewDomainReferenceFromName (lastElement namespace) before), None)
  /\ (noSlash namespace -> lastElement namespace = namespace).
Proof.
  intros Hns Hb Hs. split.
  - exact (decode_truncated baseDir namespace before after Hns Hb Hs).
  - apply lastElement_noSlash.
Qed.

Lemma C10_name_truncated_witness :
  DomainFromSocketPath (SocketFromNamespaceName "/run/x" "ns" "a_b")
  = (Some (api.NewDomainReferenceFromName "ns" "a"), None).
Proof.
  exact (proj1 (C10_name_truncated "/run/x" "ns" "a" "b" eq_refl eq_refl eq_refl)).
Defined.

End Addressing.

(** * Channel discovery *)

Section Discovery.

Import GoErrors cmdclient scenarios.

Lemma append_each (A B : Type) (f : A -> B) (l : list A) (acc : list B) :
  fold_left (fun out x => out ++ [f x]) l acc = acc ++ map f l.
Proof.
  revert acc. induction l as [|x l IH]; intros acc; simpl.
  - now rewrite app_nil_r.
  - now rewrite IH, <- app_assoc.
Qed.

(** When the directory is there and can be read, every entry is listed
    under it, in the order [ReadDir] gives. *)
Lemma ListAllSockets_lists (fs : FileSystem) (baseDir : string) (files : list string) :
  FileExists fs (Filepath.Join [baseDir; "sockets"]) = (true, None) ->
  ReadDir fs (Filepath.Join [baseDir; "sockets"]) = (files, None) ->
  ListAllSockets fs baseDir
  = (map (fun file => Filepath.Join [Filepath.Join [baseDir; "sockets"]; file]) files, None).
Proof.
  intros HE HR. unfold ListAllSockets. rewrite HE, HR. cbn [Bool.eqb].
  now rewrite (append_each _ _ (fun file => Filepath.Join [Filepath.Join [baseDir; "sockets"]; file])).
Qed.

(** C4: when the existence check reports the sockets directory absent (no
    error, not there), the listing is empty and there is no error; an error
    comes out only when the existence check itself or the reading of the
    directory failed, and it is that error. *)
Theorem C4_absent_directory_is_empty (fs : FileSystem) (baseDir : string) :
  let fileDir := Filepath.Join [baseDir; "sockets"] in
  (FileExists fs fileDir = (false, None) -> ListAllSockets fs baseDir = ([], None)) /\
  (forall sockets e,
      ListAllSockets fs baseDir = (sockets, Some e) ->
      sockets = [] /\
      (snd (FileExists fs fileDir) = Some e \/
       (FileExists fs fileDir = (true, None) /\ snd (ReadDir fs fileDir) = Some e))).
Proof.
  intros fileDir. unfold ListAllSockets. fold fileDir. split.
  - intros ->. reflexivity.
  - intros sockets e. destruct (FileExists fs fileDir) as [ex [e1|]].
    + intros [= <- <-]. auto.
    + destruct ex; cbn [Bool.eqb]; [|discriminate].
      destruct (ReadDir fs fileDir) as [files [e2|]]; [|discriminate].
      intros [= <- <-]. auto.
Qed.

Lemma C4_absent_directory_is_empty_witness :
  ListAllSockets noSocketsYet "/run/x" = ([], None) /\
  ([] = @nil string /\
   (snd (FileExists unreadable (Filepath.Join ["/run/x"; "sockets"]))
      = Some (otherError "permission denied") \/
    (FileExists unreadable (Filepath.Join ["/run/x"; "sockets"]) = (true, None) /\
     snd (ReadDir unreadable (Filepath.Join ["/run/x"; "sockets"]))
       = Some (otherError "permission denied")))).
Proof.
  split.
  - apply (C4_absent_directory_is_empty noSocketsYet "/run/x"). reflexivity.
  - apply (proj2 (C4_absent_directory_is_empty unreadable "/run/x")). reflexivity.
Defined.

End Discovery.

(** * Command dispatcher *)

Section FormatFacts.

Import GoStrings Fmt.

(** A format without '%' is written as it is. *)
Lemma formatLoop_plain (format : string) (fuel : nat) :
  containsByte "%" format = false -> String.length format < fuel ->
  formatLoop fuel format = format.
Proof.
  revert fuel. induction format as [|c f IH]; intros fuel H Hlen.
  - destruct fuel; [inversion Hlen | reflexivity].
  - destruct fuel as [|fuel]; [inversion Hlen|].
    cbn [containsByte] in H. cbn [formatLoop].
    destruct (Ascii.eqb c "%"); [discriminate|].
    rewrite IH; [reflexivity | assumption|]. simpl in Hlen. lia.
Qed.

Lemma Sprintf0_plain (format : string) :
  containsByte "%" format = false -> Sprintf0 format = format.
Proof. intros H. apply formatLoop_plain; [assumption | lia]. Qed.

End FormatFacts.

Section DispatcherFacts.

Import GoStrings GoErrors cmdclient.

Context {VirtualMachine SecretMap : Type}.

Implicit Types (c : VirtLauncherClient VirtualMachine SecretMap)
  (args : Args VirtualMachine SecretMap) (cmd : string) (r : Reply) (e : error).

(** Every call of the primitive puts exactly one request on the wire, with
    the command name and the arguments it was given. *)
Lemma genericSendCmd_sent c args cmd :
  sent (client (fst (genericSendCmd c args cmd)))
  = sent (client c) ++ [mkRequest cmd args]
  /\ peer (client (fst (genericSendCmd c args cmd))) = peer (client c).
Proof.
  unfold genericSendCmd, Call.
  destruct (peer (client c) (sent (client c)) (mkRequest cmd args) emptyReply) as [r [e|]].
  - destruct (IsDisconnected (Some e)); split; reflexivity.
  - cbn [IsDisconnected]. destruct (negb (Bool.eqb (Success r) true)); split; reflexivity.
Qed.

(** The three outcomes of the primitive, by what the connection answers. *)
Lemma genericSendCmd_disconnected c args cmd r e :
  answer c cmd args = (r, Some e) -> IsDisconnected (Some e) = true ->
  snd (genericSendCmd c args cmd) = (r, Some e).
Proof.
  unfold answer, genericSendCmd, Call. intros -> ->. reflexivity.
Qed.

Lemma genericSendCmd_rejected c args cmd r :
  answer c cmd args = (r, None) -> Success r = false ->
  snd (genericSendCmd c args cmd)
  = (r, Some (Fmt.Errorf0 ("server error. command " ++ cmd ++ " failed: " ++ Message r))).
Proof.
  unfold answer, genericSendCmd, Call. intros -> H. cbn [IsDisconnected]. rewrite H. reflexivity.
Qed.

Lemma genericSendCmd_success c args cmd r :
  answer c cmd args = (r, None) -> Success r = true ->
  snd (genericSendCmd c args cmd) = (r, None).
Proof.
  unfold answer, genericSendCmd, Call. intros -> H. cbn [IsDisconnected]. rewrite H. reflexivity.
Qed.

(** The named operations hand back the error of the primitive. *)
Lemma operations_return_primitive_error c (vm : option VirtualMachine)
  (secrets : option SecretMap) (usageType usageID secretValue : string) :
  snd (SyncVirtualMachine c vm secrets)
    = snd (snd (genericSendCmd c (mkArgs vm secrets "" "" "") "Launcher.Sync")) /\
  snd (ShutdownVirtualMachine c vm)
    = snd (snd (genericSendCmd c (mkArgs vm None "" "" "") "Launcher.Shutdown")) /\
  snd (KillVirtualMachine c vm)
    = snd (snd (genericSendCmd c (mkArgs vm None "" "" "") "Launcher.Kill")) /\
  snd (SyncSecret c vm usageType usageID secretValue)
    = snd (snd (genericSendCmd c (mkArgs vm None usageType usageID secretValue)
                               "Launcher.SyncSecret")) /\
  snd (Ping c) = snd (snd (genericSendCmd c emptyArgs "Launcher.Ping")).
Proof.
  unfold SyncVirtualMachine, ShutdownVirtualMachine, KillVirtualMachine, SyncSecret, Ping.
  repeat split;
    match goal with
    | |- context [genericSendCmd ?c ?args ?cmd] =>
        destruct (genericSendCmd c args cmd) as [? [? ?]]; reflexivity
    end.
Qed.

(** A rejection whose command name and message hold no '%' is reported with
    the message as the peer gave it. *)
Lemma genericSendCmd_rejected_plain c args cmd r :
  answer c cmd args = (r, None) -> Success r = false ->
  containsByte "%" cmd = false -> containsByte "%" (Message r) = false ->
  snd (genericSendCmd c args cmd)
  = (r, Some (errorString ("server error. command " ++ cmd ++ " failed: " ++ Message r))).
Proof.
  intros Ha Hs Hc Hm. rewrite (genericSendCmd_rejected c args cmd r Ha Hs).
  unfold Fmt.Errorf0, New. rewrite Sprintf0_plain; [reflexivity|].
  cbn [append containsByte]. rewrite containsByte_app. cbn [append containsByte].
  rewrite Hc, Hm. reflexivity.
Qed.

(** C2: when the call fails with one of the three peer-gone errors, the
    primitive hands back that very error, which [IsDisconnected] recognises
    and which is neither of the two errors it builds itself, whatever the
    reply value holds (its [Success] field included). *)
Theorem C2_disconnected_first c args cmd r e :
  answer c cmd args = (r, Some e) ->
  e = ErrShutdown \/ e = ErrUnexpectedEOF \/ e = EOF ->
  snd (genericSendCmd c args cmd) = (r, Some e) /\
  IsDisconnected (snd (snd (genericSendCmd c args cmd))) = true /\
  snd (snd (genericSendCmd c args cmd))
  <> Some (Fmt.Errorf0 ("unknown error encountered sending command " ++ cmd ++ ": " ++ Error e)) /\
  snd (snd (genericSendCmd c args cmd))
  <> Some (Fmt.Errorf0 ("server error. command " ++ cmd ++ " failed: " ++ Message r)) /\
  (forall text, snd (snd (genericSendCmd c args cmd)) <> Some (errorString text)).
Proof.
  intros Ha He.
  assert (Hd : IsDisconnected (Some e) = true)
    by (destruct He as [->|[->| ->]]; reflexivity).
  rewrite (genericSendCmd_disconnected c args cmd r e Ha Hd). cbn [snd].
  repeat split; trivial; unfold Fmt.Errorf0, New;
    destruct He as [->|[->| ->]]; discriminate.
Qed.

(** C6: when the call of "Launcher.GetDomain" succeeds, a reply without
    domain gives the zero domain, [exists = false] and no error; a reply with
    a domain gives that domain and [exists = true]. *)
Theorem C6_GetDomain_exists c r :
  answer c "Launcher.GetDomain" emptyArgs = (r, None) -> Success r = true ->
  (Domain r = None ->
   snd (GetDomain c) = (Some api.zeroDomain, false, None)) /\
  (forall d, Domain r = Some d ->
   snd (GetDomain c) = (Some d, true, None)).
Proof.
  intros Ha Hs. pose proof (genericSendCmd_success c emptyArgs _ r Ha Hs) as G.
  unfold GetDomain.
  destruct (genericSendCmd c emptyArgs "Launcher.GetDomain") as [c' [r' e']].
  cbn [snd] in G. injection G as -> ->.
  split; [intros -> | intros d ->]; reflexivity.
Qed.

Ltac one_request :=
  match goal with
  | |- context [genericSendCmd ?c ?args ?cmd] =>
      unfold wire; pose proof (proj1 (genericSendCmd_sent c args cmd));
      destruct (genericSendCmd c args cmd) as [? [? ?]]; assumption
  end.

(** C7 (amended): each of the six operations puts exactly one request on
    the wire, under its own command name, with these fields set and the
    others left empty: Sync the workload definition and the secret map,
    Shutdown and Kill the workload definition, SyncSecret the workload
    definition, the usage type, the usage ID and the secret value,
    GetDomain and Ping nothing. *)
Theorem C7_named_operations c (vm : option VirtualMachine) (secrets : option SecretMap)
  (usageType usageID secretValue : string) :
  wire (fst (SyncVirtualMachine c vm secrets))
    = wire c ++ [mkRequest "Launcher.Sync" (mkArgs vm secrets "" "" "")] /\
  wire (fst (ShutdownVirtualMachine c vm))
    = wire c ++ [mkRequest "Launcher.Shutdown" (mkArgs vm None "" "" "")] /\
  wire (fst (KillVirtualMachine c vm))
    = wire c ++ [mkRequest "Launcher.Kill" (mkArgs vm None "" "" "")] /\
  wire (fst (SyncSecret c vm usageType usageID secretValue))
    = wire c ++ [mkRequest "Launcher.SyncSecret" (mkArgs vm None usageType usageID secretValue)] /\
  wire (fst (GetDomain c))
    = wire c ++ [mkRequest "Launcher.GetDomain" (mkArgs None None "" "" "")] /\
  wire (fst (Ping c))
    = wire c ++ [mkRequest "Launcher.Ping" (mkArgs None None "" "" "")].
Proof.
  repeat split.
  - unfold SyncVirtualMachine. one_request.
  - unfold ShutdownVirtualMachine. one_request.
  - unfold KillVirtualMachine. one_request.
  - unfold SyncSecret. one_request.
  - unfold GetDomain, emptyArgs, wire.
    pose proof (proj1 (genericSendCmd_sent c (mkArgs None None "" "" "") "Launcher.GetDomain")) as H.
    destruct (genericSendCmd c (mkArgs None None "" "" "") "Launcher.GetDomain") as [c' [r' [e'|]]];
      [exact H|]. destruct (Domain r'); exact H.
  - unfold Ping, emptyArgs. one_request.
Qed.

End DispatcherFacts.

(** * The dispatcher on the scenarios *)

Section DispatcherScenarios.

Import GoStrings GoErrors cmdclient scenarios.

Lemma C2_disconnected_first_witness :
  snd (genericSendCmd hungUp emptyArgs "Launcher.Ping") = (emptyReply, Some ErrUnexpectedEOF) /\
  IsDisconnected (snd (snd (genericSendCmd hungUp emptyArgs "Launcher.Ping"))) = true /\
  snd (snd (genericSendCmd hungUp emptyArgs "Launcher.Ping"))
  <> Some (Fmt.Errorf0 ("unknown error encountered sending command " ++ "Launcher.Ping" ++ ": "
                        ++ Error ErrUnexpectedEOF)) /\
  snd (snd (genericSendCmd hungUp emptyArgs "Launcher.Ping"))
  <> Some (Fmt.Errorf0 ("server error. command " ++ "Launcher.Ping" ++ " failed: "
                        ++ Message emptyReply)) /\
  (forall text, snd (snd (genericSendCmd hungUp emptyArgs "Launcher.Ping"))
                <> Some (errorString text)).
Proof.
  apply (C2_disconnected_first hungUp emptyArgs "Launcher.Ping" emptyReply ErrUnexpectedEOF).
  - reflexivity.
  - right. left. reflexivity.
Defined.

(** C5 on a message with a '%': the peer turns "Launcher.Ping" down with the
    message "a%2Fb"; the error that comes back reads "a%!F(MISSING)b" in its
    place, and the message is no longer part of it.  [fmt.Errorf] took the
    text built by [fmt.Sprintf] as a format. *)
Theorem C5_rejection_message_reformatted :
  snd (genericSendCmd (refusing "a%2Fb") emptyArgs "Launcher.Ping")
  = (mkReply false "a%2Fb" None,
     Some (errorString "server error. command Launcher.Ping failed: a%!F(MISSING)b")) /\
  Contains "server error. command Launcher.Ping failed: a%!F(MISSING)b" "a%2Fb" = false /\
  ("server error. command " ++ "Launcher.Ping" ++ " failed: " ++ "a%2Fb")%string
  <> "server error. command Launcher.Ping failed: a%!F(MISSING)b".
Proof. repeat split. discriminate. Qed.

Lemma C6_GetDomain_exists_witness :
  snd (GetDomain (accepting None)) = (Some api.zeroDomain, false, None) /\
  snd (GetDomain (accepting (Some (api.mkDomain "default" "vm1"))))
  = (Some (api.mkDomain "default" "vm1"), true, None).
Proof.
  split.
  - apply (proj1 (C6_GetDomain_exists (accepting None) (mkReply true "" None) eq_refl eq_refl)).
    reflexivity.
  - apply (proj2 (C6_GetDomain_exists (accepting (Some (api.mkDomain "default" "vm1")))
                    (mkReply true "" (Some (api.mkDomain "default" "vm1"))) eq_refl eq_refl)).
    reflexivity.
Defined.

(** C7, as stated, fails for SyncSecret: the request carries the workload
    definition it was given as well, not only the three secret fields. *)
Lemma C7_SyncSecret_carries_vm :
  wire (fst (SyncSecret (accepting None) (Some tt) "ceph" "id0" "s3cr3t"))
  = [mkRequest "Launcher.SyncSecret" (mkArgs (Some tt) None "ceph" "id0" "s3cr3t")] /\
  mkRequest "Launcher.SyncSecret" (mkArgs (Some tt) None "ceph" "id0" "s3cr3t")
  <> mkRequest "Launcher.SyncSecret" (@mkArgs unit unit None None "ceph" "id0" "s3cr3t").
Proof. split; [reflexivity | discriminate]. Qed.

End DispatcherScenarios.

(** * More on paths: what [Clean] returns, read again *)

Section CleanFacts.

Import GoStrings Filepath.

Lemma cleanStep_cases (e : string) :
  (e = "" \/ e = "." \/ e = "..") \/ realElement e.
Proof.
  destruct (String.eqb_spec e ""); [auto|].
  destruct (String.eqb_spec e "."); [auto|].
  destruct (String.eqb_spec e ".."); [auto|].
  right. repeat split; assumption.
Qed.

Lemma cleanStep_tidy (rooted : bool) (out : cleanBuf) (e : string) :
  noSlash e -> tidy rooted out -> tidy rooted (cleanStep rooted out e).
Proof.
  intros He [Hk Hd].
  destruct (cleanStep_cases e) as [[->|[->| ->]]|Hr].
  - exact (conj Hk Hd).
  - exact (conj Hk Hd).
  - unfold cleanStep. cbn [String.eqb Ascii.eqb Bool.eqb].
    destruct out as [dd [|k ks]]; cbn [kept dotdot] in *.
    + destruct rooted; split; cbn [kept dotdot]; auto. discriminate.
    + split; cbn [kept dotdot]; [now inversion Hk | assumption].
  - rewrite (cleanStep_real _ _ _ Hr). split; cbn [kept dotdot]; auto.
Qed.

Lemma fold_cleanStep_tidy (rooted : bool) (l : list string) (out : cleanBuf) :
  Forall noSlash l -> tidy rooted out -> tidy rooted (fold_left (cleanStep rooted) l out).
Proof.
  revert out. induction l as [|e l IH]; intros out Hl Ht; [exact Ht|].
  inversion Hl; subst. cbn [fold_left]. apply IH; [assumption|].
  now apply cleanStep_tidy.
Qed.

(** Reading real elements extends the buffer by them. *)
Lemma fold_cleanStep_real (rooted : bool) (l : list string) (out : cleanBuf) :
  Forall (fun e => realElement e /\ noSlash e) l ->
  fold_left (cleanStep rooted) l out = mkBuf (dotdot out) (rev l ++ kept out).
Proof.
  revert out. induction l as [|e l IH]; intros out Hl.
  - now destruct out.
  - inversion Hl as [|? ? [He _] Hl']; subst. cbn [fold_left].
    rewrite (cleanStep_real _ _ _ He), IH by assumption.
    cbn [dotdot kept rev]. now rewrite <- app_assoc.
Qed.

(** Reading [..] with nothing to remove, in a path that is not rooted. *)
Lemma fold_cleanStep_dotdot (n m : nat) :
  fold_left (cleanStep false) (repeat ".." n) (mkBuf m []) = mkBuf (n + m) [].
Proof.
  revert m. induction n as [|n IH]; intros m; [reflexivity|].
  cbn [repeat fold_left]. change (cleanStep false (mkBuf m []) "..") with (mkBuf (S m) []).
  rewrite IH. f_equal. lia.
Qed.

(** Reading what was written gives the buffer back. *)
Lemma fold_cleanStep_written (rooted : bool) (out : cleanBuf) :
  tidy rooted out ->
  fold_left (cleanStep rooted) (written out) (mkBuf 0 []) = out.
Proof.
  intros [Hk Hd]. unfold written. rewrite fold_left_app.
  assert (E : fold_left (cleanStep rooted) (repeat ".." (dotdot out)) (mkBuf 0 [])
              = mkBuf (dotdot out) []).
  { destruct rooted.
    - now rewrite (Hd eq_refl).
    - rewrite fold_cleanStep_dotdot. f_equal. lia. }
  rewrite E, fold_cleanStep_real.
  - cbn [dotdot kept]. rewrite rev_involutive, app_nil_r. now destruct out.
  - apply Forall_rev. exact Hk.
Qed.

Lemma written_noSlash (rooted : bool) (out : cleanBuf) :
  tidy rooted out -> Forall noSlash (written out).
Proof.
  intros [Hk _]. unfold written. apply Forall_app. split.
  - apply Forall_forall. intros x Hx. apply repeat_spec in Hx. now subst.
  - apply Forall_rev. eapply Forall_impl; [|exact Hk]. now intros e [_ He].
Qed.

(** Elements joined by separators are the elements of the result. *)
Lemma elements_Join (l : list string) :
  Forall noSlash l -> l <> [] -> elements (GoStrings.Join l "/") = l.
Proof.
  induction l as [|e l IH]; intros Hl Hne; [contradiction|].
  inversion Hl; subst. destruct l as [|e' l].
  - now apply elements_noSlash.
  - change (GoStrings.Join (e :: e' :: l) "/")
      with (e ++ String "/" (GoStrings.Join (e' :: l) "/"))%string.
    rewrite elements_app_sep, IH, elements_noSlash by (assumption || discriminate).
    reflexivity.
Qed.

Lemma Join_snoc_eq (l : list string) (f : string) :
  l <> [] -> GoStrings.Join (l ++ [f]) "/" = (GoStrings.Join l "/" ++ "/" ++ f)%string.
Proof.
  induction l as [|e l IH]; intros Hne; [contradiction|].
  destruct l as [|e' l]; [reflexivity|].
  change (GoStrings.Join ((e :: e' :: l) ++ [f]) "/")
    with (e ++ "/" ++ GoStrings.Join ((e' :: l) ++ [f]) "/")%string.
  rewrite IH by discriminate.
  change (GoStrings.Join (e :: e' :: l) "/")
    with (e ++ "/" ++ GoStrings.Join (e' :: l) "/")%string.
  now rewrite !append_assoc.
Qed.

Lemma elements_rooted (p : string) :
  elements (String Separator p) = "" :: elements p.
Proof. reflexivity. Qed.

(** The first byte of what a buffer of a path that is not rooted holds is
    no separator. *)
Lemma Join_written_head (out : cleanBuf) :
  tidy false out -> written out <> [] ->
  exists c rest, GoStrings.Join (written out) "/" = String c rest /\ IsPathSeparator c = false.
Proof.
  intros [Hk _] Hne. unfold written in *.
  destruct (dotdot out) as [|n].
  - cbn [repeat app] in *. destruct (rev (kept out)) as [|e l] eqn:E; [contradiction|].
    assert (He : realElement e /\ noSlash e).
    { apply Forall_rev in Hk. rewrite E in Hk. now inversion Hk. }
    destruct He as [[He _] Hs]. destruct e as [|c e]; [contradiction|].
    unfold noSlash in Hs. cbn [containsByte] in Hs.
    exists c. destruct l; eexists; (split; [reflexivity|]);
      unfold IsPathSeparator; now destruct (Ascii.eqb c Separator).
  - exists "."%char. cbn [repeat app]. destruct (repeat ".." n ++ rev (kept out));
      eexists; split; reflexivity.
Qed.

(** A cleaned path that ends in a real element, extended by one more real
    element, is clean already. *)
Lemma Clean_extend (p f : string) :
  realElement (lastElement p) -> realElement f -> noSlash f ->
  Clean (Clean p ++ "/" ++ f) = (Clean p ++ "/" ++ f)%string.
Proof.
  intros Hlast Hf Hs.
  destruct p as [|c p'] eqn:Ep.
  { exfalso. destruct Hlast as [H _]. now apply H. }
  rewrite <- Ep in *.
  set (r := IsPathSeparator c).
  set (out := fold_left (cleanStep r) (elements p) (mkBuf 0 [])).
  assert (Ht : tidy r out).
  { apply fold_cleanStep_tidy; [apply elements_all_noSlash|]. split; [constructor | reflexivity]. }
  assert (Hne : written out <> []).
  { unfold out. rewrite (elements_split_last p), fold_left_app. cbn [fold_left].
    rewrite (cleanStep_real _ _ _ Hlast). unfold written. cbn [kept rev].
    intros H. apply app_eq_nil in H as [_ H]. apply app_eq_nil in H as [_ H]. discriminate. }
  assert (Hw : Forall noSlash (written out)) by exact (written_noSlash r out Ht).
  assert (Hout : cleanStep r out f = mkBuf (dotdot out) (f :: kept out))
    by exact (cleanStep_real r out f Hf).
  assert (Hwf : written (mkBuf (dotdot out) (f :: kept out)) = written out ++ [f]).
  { unfold written. cbn [dotdot kept rev]. now rewrite app_assoc. }
  assert (Hc : Clean p = if r then String Separator (GoStrings.Join (written out) "/")
                         else GoStrings.Join (written out) "/").
  { rewrite Ep. unfold Clean. rewrite <- Ep. fold r. fold out.
    destruct r; [reflexivity|]. now destruct (written out). }
  rewrite Hc. destruct r eqn:Er.
  - cbn [append]. unfold Clean.
    change (IsPathSeparator Separator) with true. cbv iota.
    rewrite elements_rooted, elements_app_sep, elements_Join, (elements_noSlash f Hs) by assumption.
    cbn [fold_left]. change (cleanStep true (mkBuf 0 []) "") with (mkBuf 0 []).
    rewrite fold_left_app, (fold_cleanStep_written true out Ht). cbn [fold_left].
    rewrite Hout, Hwf, (Join_snoc_eq _ f Hne). reflexivity.
  - destruct (Join_written_head out Ht Hne) as (c0 & rest & Hj & Hc0).
    assert (E : elements (GoStrings.Join (written out) "/" ++ "/" ++ f)
                = written out ++ [f]).
    { change ("/" ++ f)%string with (String "/" f).
      now rewrite elements_app_sep, elements_Join, (elements_noSlash f Hs). }
    assert (J : GoStrings.Join (written out ++ [f]) "/"
                = (GoStrings.Join (written out) "/" ++ "/" ++ f)%string)
      by exact (Join_snoc_eq _ f Hne).
    revert E J. rewrite Hj. cbn [append]. intros E J.
    unfold Clean. rewrite Hc0, E, fold_left_app, (fold_cleanStep_written false out Ht).
    cbn [fold_left]. rewrite Hout, Hwf.
    destruct (written out ++ [f]) eqn:F; [now destruct (written out) | exact J].
Qed.

(** [Clean] never returns the empty string. *)
Lemma Clean_not_empty (p : string) : Clean p <> "".
Proof.
  unfold Clean. destruct p as [|c p']; [discriminate|].
  destruct (IsPathSeparator c) eqn:Er; [discriminate|].
  set (out := fold_left (cleanStep false) (elements (String c p')) (mkBuf 0 [])).
  assert (Ht : tidy false out).
  { apply fold_cleanStep_tidy; [apply elements_all_noSlash|]. split; [constructor | discriminate]. }
  destruct (written out) as [|w ws] eqn:W; [discriminate|].
  destruct (Join_written_head out Ht) as (c0 & rest & Hj & _); [now rewrite W|].
  rewrite W in Hj. rewrite Hj. discriminate.
Qed.

(** The same for [filepath.Join]: under a directory made by [Join] from a
    path that ends in a real element, a file name is appended as it is. *)
Lemma Join_under (dir file f : string) :
  realElement (lastElement file) -> realElement f -> noSlash f ->
  Filepath.Join [Filepath.Join [dir; file]; f] = (Filepath.Join [dir; file] ++ "/" ++ f)%string.
Proof.
  intros Hfile Hf Hs.
  assert (Hne : file <> "").
  { intros ->. destruct Hfile as [H _]. apply H. reflexivity. }
  assert (E : exists p, Filepath.Join [dir; file] = Clean p /\ realElement (lastElement p)).
  { cbn [Filepath.Join]. destruct (String.eqb_spec dir "") as [->|Hd].
    - destruct (String.eqb_spec file ""); [contradiction|]. now exists file.
    - exists (dir ++ "/" ++ file)%string. split; [reflexivity|].
      change ("/" ++ file)%string with (String "/" file). now rewrite lastElement_app_sep. }
  destruct E as (p & -> & Hp).
  cbn [Filepath.Join]. destruct (String.eqb_spec (Clean p) "") as [E|_].
  - now apply Clean_not_empty in E.
  - cbn [GoStrings.Join]. now apply Clean_extend.
Qed.

End CleanFacts.

(** * Addresses, listings and decoding together *)

Section Layout.

Import GoStrings Filepath GoErrors cmdclient scenarios.

Lemma sockFile_entryName (namespace name : string) :
  noSlash namespace -> noSlash name ->
  entryName (namespace ++ "_" ++ name ++ "_sock").
Proof.
  intros Hns Hn. split.
  - apply (realElement_of_byte "_"); [discriminate|].
    rewrite containsByte_app. cbn. apply orb_true_r.
  - unfold noSlash in *. rewrite containsByte_app, Hns. cbn [append containsByte orb].
    change (Ascii.eqb "_" Separator) with false. cbv iota.
    rewrite containsByte_app, Hn. reflexivity.
Qed.

Lemma length_app_string (a b : string) :
  String.length (a ++ b) = String.length a + String.length b.
Proof. induction a as [|x a IH]; cbn; [reflexivity | now rewrite IH]. Qed.

Lemma sockets_real : realElement (lastElement "sockets").
Proof. repeat split; discriminate. Qed.

(** [Base] is the identity on what it returns. *)
Lemma Base_shape (p : string) :
  Base p = "/" \/ (noSlash (Base p) /\ Base p <> "").
Proof.
  unfold Base. destruct p as [|c p']; [right; split; [reflexivity | discriminate]|].
  pose proof (lastElement_is_noSlash (stripTrailing (String c p'))) as H.
  destruct (lastElement (stripTrailing (String c p'))); [now left|].
  right. split; [exact H | discriminate].
Qed.

Lemma Base_Base (p : string) : Base (Base p) = Base p.
Proof.
  destruct (Base_shape p) as [->|[Hs Hne]]; [reflexivity|].
  now apply (Base_app "" (Base p)); auto.
Qed.

(** X1: the address of an identity whose components hold no '/' is the
    socket file name [<namespace>_<name>_sock] directly under the sockets
    directory, and the sockets directory is the entry "sockets" of the
    cleaned base directory. *)
Theorem X1_address_layout (baseDir namespace name : string) :
  noSlash namespace -> noSlash name ->
  SocketFromNamespaceName baseDir namespace name
  = (SocketsDirectory baseDir ++ "/" ++ namespace ++ "_" ++ name ++ "_sock")%string
  /\ Base (SocketsDirectory baseDir) = "sockets"
  /\ Base (SocketFromNamespaceName baseDir namespace name)
     = (namespace ++ "_" ++ name ++ "_sock")%string.
Proof.
  intros Hns Hn. destruct (sockFile_entryName namespace name Hns Hn) as [Hr Hs].
  unfold SocketFromNamespaceName, SocketsDirectory. repeat split.
  - apply Join_under; [exact sockets_real | assumption | assumption].
  - exact (Base_Join baseDir "sockets" sockets_real).
  - rewrite Base_Join; rewrite (lastElement_noSlash _ Hs); [reflexivity | assumption].
Qed.

Lemma X1_address_layout_witness :
  SocketFromNamespaceName "/run//x/" "default" "vm1"
  = (SocketsDirectory "/run//x/" ++ "/" ++ "default" ++ "_" ++ "vm1" ++ "_sock")%string
  /\ Base (SocketsDirectory "/run//x/") = "sockets"
  /\ Base (SocketFromNamespaceName "/run//x/" "default" "vm1")
     = ("default" ++ "_" ++ "vm1" ++ "_sock")%string.
Proof. apply (X1_address_layout "/run//x/" "default" "vm1"); reflexivity. Defined.

(** X2: when the sockets directory is there and can be read, the listing
    holds one address per directory entry, in the order of the entries:
    the entry name directly under the sockets directory.  The base of each
    address is its entry name, so entries that differ give addresses that
    differ. *)
Theorem X2_listing_one_per_entry (fs : FileSystem) (baseDir : string) (files : list string) :
  FileExists fs (SocketsDirectory baseDir) = (true, None) ->
  ReadDir fs (SocketsDirectory baseDir) = (files, None) ->
  Forall entryName files ->
  ListAllSockets fs baseDir
  = (map (fun file => (SocketsDirectory baseDir ++ "/" ++ file)%string) files, None)
  /\ List.length (fst (ListAllSockets fs baseDir)) = List.length files
  /\ map Base (fst (ListAllSockets fs baseDir)) = files
  /\ (NoDup files -> NoDup (fst (ListAllSockets fs baseDir))).
Proof.
  intros HE HR Hfiles. unfold SocketsDirectory in *.
  pose proof (ListAllSockets_lists fs baseDir files HE HR) as HL.
  assert (Hb : map Base (fst (ListAllSockets fs baseDir)) = files).
  { rewrite HL. cbn [fst]. rewrite map_map. rewrite <- (map_id files) at 2.
    apply map_ext_in. intros f Hf.
    destruct (proj1 (Forall_forall _ _) Hfiles f Hf) as [Hr Hs].
    rewrite Base_Join; rewrite (lastElement_noSlash f Hs); [reflexivity | assumption]. }
  repeat split.
  - rewrite HL. f_equal. apply map_ext_in. intros f Hf.
    destruct (proj1 (Forall_forall _ _) Hfiles f Hf) as [Hr Hs].
    now apply Join_under; [exact sockets_real | |].
  - rewrite HL. cbn [fst]. apply length_map.
  - exact Hb.
  - intros Hnd. apply (NoDup_map_inv Base). now rewrite Hb.
Qed.

Lemma X2_listing_one_per_entry_witness :
  ListAllSockets twoSockets "/run/x"
  = (["/run/x/sockets/default_vm1_sock"; "/run/x/sockets/kube-system_vm2_sock"], None)
  /\ NoDup (fst (ListAllSockets twoSockets "/run/x")).
Proof.
  assert (Hfiles : Forall entryName ["default_vm1_sock"; "kube-system_vm2_sock"]).
  { repeat constructor; discriminate. }
  assert (Hnd : NoDup ["default_vm1_sock"; "kube-system_vm2_sock"]).
  { repeat constructor; simpl; intuition discriminate. }
  destruct (X2_listing_one_per_entry twoSockets "/run/x" _ eq_refl eq_refl Hfiles)
    as (H1 & _ & _ & H4).
  split; [exact H1 | exact (H4 Hnd)].
Defined.

(** X3: when the socket file of an identity is among the entries of the
    sockets directory, the listing holds the address derived for that
    identity; with components free of '_' and '/', decoding that listed
    address gives the identity back. *)
Theorem X3_listing_finds_identity (fs : FileSystem) (baseDir namespace name : string)
  (files : list string) :
  FileExists fs (SocketsDirectory baseDir) = (true, None) ->
  ReadDir fs (SocketsDirectory baseDir) = (files, None) ->
  In (namespace ++ "_" ++ name ++ "_sock")%string files ->
  In (SocketFromNamespaceName baseDir namespace name) (fst (ListAllSockets fs baseDir)) /\
  (noSeparator namespace -> noSeparator name -> noSlash namespace -> noSlash name ->
   exists address,
     In address (fst (ListAllSockets fs baseDir)) /\
     DomainFromSocketPath address = (Some (api.mkDomain namespace name), None)).
Proof.
  intros HE HR Hin. unfold SocketsDirectory in *.
  assert (H : In (SocketFromNamespaceName baseDir namespace name)
                 (fst (ListAllSockets fs baseDir))).
  { rewrite (ListAllSockets_lists fs baseDir files HE HR). cbn [fst].
    unfold SocketFromNamespaceName, SocketsDirectory.
    exact (in_map (fun file => Filepath.Join [Filepath.Join [baseDir; "sockets"]; file]) _ _ Hin). }
  split; [exact H|].
  intros H1 H2 H3 H4. exists (SocketFromNamespaceName baseDir namespace name).
  split; [exact H|]. rewrite decode_plain by assumption.
  now rewrite lastElement_noSlash.
Qed.

Lemma X3_listing_finds_identity_witness :
  In (SocketFromNamespaceName "/run/x" "kube-system" "vm2") (fst (ListAllSockets twoSockets "/run/x")) /\
  exists address,
    In address (fst (ListAllSockets twoSockets "/run/x")) /\
    DomainFromSocketPath address = (Some (api.mkDomain "kube-system" "vm2"), None).
Proof.
  destruct (X3_listing_finds_identity twoSockets "/run/x" "kube-system" "vm2"
              ["default_vm1_sock"; "kube-system_vm2_sock"] eq_refl eq_refl) as [H1 H2].
  - right. left. reflexivity.
  - split; [exact H1 | apply H2; reflexivity].
Defined.

(** X4: decoding looks at the file name only.  A path and its base decode to
    the same domain, and two paths with the same base do. *)
Theorem X4_decode_ignores_directories (socketPath other : string) :
  fst (DomainFromSocketPath (Base socketPath)) = fst (DomainFromSocketPath socketPath) /\
  (Base other = Base socketPath ->
   fst (DomainFromSocketPath other) = fst (DomainFromSocketPath socketPath)).
Proof.
  unfold DomainFromSocketPath. rewrite Base_Base. split.
  - destruct (negb _); reflexivity.
  - intros ->. destruct (negb _); reflexivity.
Qed.

Lemma X4_decode_ignores_directories_witness :
  fst (DomainFromSocketPath "/var/run/kubevirt/sockets/default_vm1_sock")
  = fst (DomainFromSocketPath "/run/x/sockets/default_vm1_sock").
Proof.
  apply (proj2 (X4_decode_ignores_directories "/run/x/sockets/default_vm1_sock"
                  "/var/run/kubevirt/sockets/default_vm1_sock")).
  reflexivity.
Defined.

(** X5: whatever path a domain was decoded from, its namespace and name
    hold neither '_' nor '/'; so the address derived from them, under any
    base directory, decodes to the same domain again. *)
Theorem X5_decoded_identity_stable (socketPath baseDir : string) (domain : api.Domain) :
  DomainFromSocketPath socketPath = (Some domain, None) ->
  noSeparator (api.Namespace domain) /\ noSeparator (api.Name domain) /\
  noSlash (api.Namespace domain) /\ noSlash (api.Name domain) /\
  DomainFromSocketPath
    (SocketFromNamespaceName baseDir (api.Namespace domain) (api.Name domain))
  = (Some domain, None).
Proof.
  unfold DomainFromSocketPath at 1.
  destruct (Nat.eqb_spec (List.length (SplitN (Base socketPath) "_" 3)) 3) as [Hlen|];
    [|discriminate]. cbn [negb].
  rewrite SplitN_length in Hlen.
  assert (H2 : 2 <= countByte "_" (Base socketPath)) by lia.
  destruct (two_separators _ _ H2) as (a & b & rest & E & Ha & Hb).
  rewrite E, (SplitN3_two _ a b rest Ha Hb). cbn [nth]. intros [= <-].
  unfold api.NewDomainReferenceFromName. cbn [api.Namespace api.Name].
  assert (Hs : noSlash (Base socketPath)).
  { destruct (Base_shape socketPath) as [H|[H _]]; [|exact H].
    rewrite H in E. exfalso.
    assert (C : containsByte "_" "/" = containsByte "_" (a ++ String "_" (b ++ String "_" rest)))
      by now rewrite E.
    rewrite containsByte_app in C. cbn in C. rewrite orb_true_r in C. discriminate. }
  unfold noSlash in Hs. rewrite E, containsByte_app in Hs.
  apply orb_false_iff in Hs as [Hsa Hs]. cbn [containsByte] in Hs.
  change (Ascii.eqb "_" Separator) with false in Hs. cbv iota in Hs.
  rewrite containsByte_app in Hs. apply orb_false_iff in Hs as [Hsb _].
  repeat split; try assumption.
  rewrite decode_plain by assumption. now rewrite lastElement_noSlash.
Qed.

Lemma X5_decoded_identity_stable_witness :
  DomainFromSocketPath (SocketFromNamespaceName "/run/y" "a" "b")
  = (Some (api.mkDomain "a" "b"), None).
Proof.
  exact (proj2 (proj2 (proj2 (proj2
    (X5_decoded_identity_stable "/tmp/a_b_c_d" "/run/y" (api.mkDomain "a" "b") eq_refl))))).
Defined.

(** X6: the address derived for a name without '/' always decodes: the
    malformed-socket error never comes back for it, whatever '_' or '/' the
    namespace holds and whatever '_' the name holds. *)
Theorem X6_derived_address_decodes (baseDir namespace name : string) :
  noSlash name ->
  exists domain,
    DomainFromSocketPath (SocketFromNamespaceName baseDir namespace name) = (Some domain, None).
Proof.
  intros Hn. unfold DomainFromSocketPath.
  rewrite (Base_SocketFromNamespaceName _ _ _ Hn).
  set (base := (lastElement namespace ++ "_" ++ name ++ "_sock")%string).
  assert (H2 : 2 <= countByte "_" base).
  { unfold base. rewrite countByte_app. cbn [append countByte].
    rewrite Ascii.eqb_refl, countByte_app. cbn. lia. }
  destruct (two_separators _ _ H2) as (a & b & rest & E & Ha & Hb).
  rewrite E, (SplitN3_two _ a b rest Ha Hb). cbn. eauto.
Qed.

Lemma X6_derived_address_decodes_witness :
  exists domain,
    DomainFromSocketPath (SocketFromNamespaceName "/run/x" "team/a_b" "vm_1") = (Some domain, None).
Proof. apply (X6_derived_address_decodes "/run/x" "team/a_b" "vm_1"). reflexivity. Defined.

(** X7: a '_' can be read as part of the namespace or of the name: the
    identities (a_b, c) and (a, b_c) differ and have the same address, for
    every a, b, c and every base directory. *)
Theorem X7_separator_collision (baseDir a b c : string) :
  ((a ++ "_" ++ b)%string, c) <> (a, (b ++ "_" ++ c)%string) /\
  SocketFromNamespaceName baseDir (a ++ "_" ++ b) c
  = SocketFromNamespaceName baseDir a (b ++ "_" ++ c).
Proof.
  split.
  - intros [= H _]. apply (f_equal String.length) in H.
    rewrite length_app_string in H. cbn in H. lia.
  - unfold SocketFromNamespaceName.
    assert (E : ((a ++ "_" ++ b) ++ "_" ++ c ++ "_sock")%string
                = (a ++ "_" ++ (b ++ "_" ++ c) ++ "_sock")%string).
    { rewrite !append_assoc. reflexivity. }
    now rewrite E.
Qed.

End Layout.

(** * The outcomes of a command *)

Section Outcomes.

Import GoStrings GoErrors cmdclient.

Context {VirtualMachine SecretMap : Type}.

Implicit Types (c : VirtLauncherClient VirtualMachine SecretMap)
  (args : Args VirtualMachine SecretMap) (cmd : string) (r : Reply) (e : error).

(** Bytes in front of the first '%' of a format are written as they are. *)
Lemma Sprintf0_app_plain (a b : string) :
  containsByte "%" a = false -> Fmt.Sprintf0 (a ++ b) = (a ++ Fmt.Sprintf0 b)%string.
Proof.
  induction a as [|x a IH]; intros H; [reflexivity|].
  cbn [containsByte] in H. destruct (Ascii.eqb x "%") eqn:E; [discriminate|].
  unfold Fmt.Sprintf0. cbn [append String.length Fmt.formatLoop]. rewrite E.
  f_equal. exact (IH H).
Qed.

Lemma genericSendCmd_transport c args cmd r e :
  answer c cmd args = (r, Some e) -> IsDisconnected (Some e) = false ->
  snd (genericSendCmd c args cmd)
  = (r, Some (Fmt.Errorf0 ("unknown error encountered sending command " ++ cmd ++ ": " ++ Error e))).
Proof.
  unfold answer, genericSendCmd, Call. intros -> ->. reflexivity.
Qed.

Lemma genericSendCmd_outcome c args cmd :
  fst (snd (genericSendCmd c args cmd)) = fst (answer c cmd args) /\
  (snd (snd (genericSendCmd c args cmd)) = None <->
   snd (answer c cmd args) = None /\ Success (fst (answer c cmd args)) = true).
Proof.
  destruct (answer c cmd args) as [r [e|]] eqn:Ha.
  - destruct (IsDisconnected (Some e)) eqn:Hd.
    + rewrite (genericSendCmd_disconnected c args cmd r e Ha Hd). cbn.
      intuition congruence.
    + rewrite (genericSendCmd_transport c args cmd r e Ha Hd). cbn.
      intuition congruence.
  - destruct (Success r) eqn:Hs.
    + rewrite (genericSendCmd_success c args cmd r Ha Hs). cbn. tauto.
    + rewrite (genericSendCmd_rejected c args cmd r Ha Hs). cbn.
      unfold Fmt.Errorf0, New. intuition congruence.
Qed.

(** X8: the primitive hands back the reply value as the call left it,
    whatever the outcome, and it reports no error exactly when the call
    returned none and the reply says [Success]. *)
Theorem X8_success_exactly c args cmd :
  fst (snd (genericSendCmd c args cmd)) = fst (answer c cmd args) /\
  (snd (snd (genericSendCmd c args cmd)) = None <->
   snd (answer c cmd args) = None /\ Success (fst (answer c cmd args)) = true).
Proof. exact (genericSendCmd_outcome c args cmd). Qed.


(** X10: the two errors the primitive builds are told apart by how their
    text begins.  A failed call that is no disconnect gives a text that
    begins "unknown error encountered sending command ", whatever the reply
    value holds; a refused command gives one that begins
    "server error. command ".  What follows is the rest of the message as
    [fmt] writes it. *)
Theorem X10_error_texts_begin c args cmd r :
  (forall e, answer c cmd args = (r, Some e) -> IsDisconnected (Some e) = false ->
     snd (snd (genericSendCmd c args cmd))
     = Some (errorString ("unknown error encountered sending command "
                          ++ Fmt.Sprintf0 (cmd ++ ": " ++ Error e)))) /\
  (answer c cmd args = (r, None) -> Success r = false ->
     snd (snd (genericSendCmd c args cmd))
     = Some (errorString ("server error. command "
                          ++ Fmt.Sprintf0 (cmd ++ " failed: " ++ Message r)))).
Proof.
  split.
  - intros e Ha Hd. rewrite (genericSendCmd_transport c args cmd r e Ha Hd). cbn [snd].
    unfold Fmt.Errorf0, New.
    now rewrite (Sprintf0_app_plain "unknown error encountered sending command ").
  - intros Ha Hs. rewrite (genericSendCmd_rejected c args cmd r Ha Hs). cbn [snd].
    unfold Fmt.Errorf0, New.
    now rewrite (Sprintf0_app_plain "server error. command ").
Qed.

(** X11: a failed call that is no disconnect is reported with the command
    name and the text of its error as they are, when neither holds a '%'. *)
Theorem X11_transport_error_wrapped c args cmd r e :
  answer c cmd args = (r, Some e) -> IsDisconnected (Some e) = false ->
  containsByte "%" cmd = false -> containsByte "%" (Error e) = false ->
  snd (genericSendCmd c args cmd)
  = (r, Some (errorString ("unknown error encountered sending command " ++ cmd ++ ": " ++ Error e))).
Proof.
  intros Ha Hd Hc He. rewrite (genericSendCmd_transport c args cmd r e Ha Hd).
  unfold Fmt.Errorf0, New. rewrite Sprintf0_plain; [reflexivity|].
  cbn [append containsByte]. rewrite containsByte_app. cbn [append containsByte].
  rewrite Hc, He. reflexivity.
Qed.

(** X12: when the peer refuses one of the six commands with a message
    that holds no '%', the operation reports "server error. command
    <command name> failed: <message>", the message as the peer gave it. *)
Theorem X12_refusal_reported (c : VirtLauncherClient VirtualMachine SecretMap)
  (vm : option VirtualMachine) (secrets : option SecretMap)
  (usageType usageID secretValue : string) (r : Reply) :
  Success r = false -> containsByte "%" (Message r) = false ->
  (answer c "Launcher.Sync" (mkArgs vm secrets "" "" "") = (r, None) ->
   snd (SyncVirtualMachine c vm secrets)
   = Some (errorString ("server error. command Launcher.Sync failed: " ++ Message r))) /\
  (answer c "Launcher.Shutdown" (mkArgs vm None "" "" "") = (r, None) ->
   snd (ShutdownVirtualMachine c vm)
   = Some (errorString ("server error. command Launcher.Shutdown failed: " ++ Message r))) /\
  (answer c "Launcher.Kill" (mkArgs vm None "" "" "") = (r, None) ->
   snd (KillVirtualMachine c vm)
   = Some (errorString ("server error. command Launcher.Kill failed: " ++ Message r))) /\
  (answer c "Launcher.SyncSecret" (mkArgs vm None usageType usageID secretValue) = (r, None) ->
   snd (SyncSecret c vm usageType usageID secretValue)
   = Some (errorString ("server error. command Launcher.SyncSecret failed: " ++ Message r))) /\
  (answer c "Launcher.GetDomain" emptyArgs = (r, None) ->
   snd (GetDomain c)
   = (None, false,
      Some (errorString ("server error. command Launcher.GetDomain failed: " ++ Message r)))) /\
  (answer c "Launcher.Ping" emptyArgs = (r, None) ->
   snd (Ping c)
   = Some (errorString ("server error. command Launcher.Ping failed: " ++ Message r))).
Proof.
  intros Hs Hm.
  destruct (operations_return_primitive_error c vm secrets usageType usageID secretValue)
    as (E1 & E2 & E3 & E4 & E5).
  repeat split; intros Ha.
  - rewrite E1, (genericSendCmd_rejected_plain c _ _ r Ha Hs eq_refl Hm). reflexivity.
  - rewrite E2, (genericSendCmd_rejected_plain c _ _ r Ha Hs eq_refl Hm). reflexivity.
  - rewrite E3, (genericSendCmd_rejected_plain c _ _ r Ha Hs eq_refl Hm). reflexivity.
  - rewrite E4, (genericSendCmd_rejected_plain c _ _ r Ha Hs eq_refl Hm). reflexivity.
  - pose proof (genericSendCmd_rejected_plain c _ _ r Ha Hs eq_refl Hm) as G.
    unfold GetDomain. destruct (genericSendCmd c emptyArgs "Launcher.GetDomain") as [c' [r' e']].
    cbn [snd] in G. injection G as -> ->. reflexivity.
  - rewrite E5, (genericSendCmd_rejected_plain c _ _ r Ha Hs eq_refl Hm). reflexivity.
Qed.

(** X13: GetDomain gives no domain whenever the command did not succeed:
    after a failed call or a refusal it returns a nil domain,
    [exists = false] and the error of the primitive, even when the reply
    carries a domain. *)
Theorem X13_GetDomain_failure c r (err : option error) :
  answer c "Launcher.GetDomain" emptyArgs = (r, err) ->
  err <> None \/ Success r = false ->
  snd (GetDomain c)
  = (None, false, snd (snd (genericSendCmd c emptyArgs "Launcher.GetDomain"))) /\
  snd (snd (genericSendCmd c emptyArgs "Launcher.GetDomain")) <> None.
Proof.
  intros Ha H.
  assert (Hne : snd (snd (genericSendCmd c emptyArgs "Launcher.GetDomain")) <> None).
  { intros E. apply (proj2 (genericSendCmd_outcome c emptyArgs "Launcher.GetDomain")) in E.
    rewrite Ha in E. cbn in E. destruct E as [-> Hs]. destruct H as [H|H]; [now apply H | congruence]. }
  split; [|exact Hne].
  unfold GetDomain. destruct (genericSendCmd c emptyArgs "Launcher.GetDomain") as [c' [r' [e'|]]].
  - reflexivity.
  - now contradiction Hne.
Qed.

End Outcomes.

Section OutcomeScenarios.

Import GoStrings GoErrors cmdclient scenarios.

Lemma X10_error_texts_begin_witness :
  snd (snd (genericSendCmd (failing (otherError "gob: type mismatch")) emptyArgs "Launcher.Ping"))
  = Some (errorString ("unknown error encountered sending command "
                       ++ Fmt.Sprintf0 ("Launcher.Ping" ++ ": " ++ "gob: type mismatch"))) /\
  snd (snd (genericSendCmd (refusing "a%2Fb") emptyArgs "Launcher.Ping"))
  = Some (errorString ("server error. command "
                       ++ Fmt.Sprintf0 ("Launcher.Ping" ++ " failed: " ++ "a%2Fb"))).
Proof.
  split.
  - apply (proj1 (X10_error_texts_begin (failing (otherError "gob: type mismatch")) emptyArgs
                    "Launcher.Ping" (mkReply true "" None))
             (otherError "gob: type mismatch")); reflexivity.
  - apply (proj2 (X10_error_texts_begin (refusing "a%2Fb") emptyArgs
                    "Launcher.Ping" (mkReply false "a%2Fb" None))); reflexivity.
Defined.

(** An error with the text of [io.EOF] that is not [io.EOF] is wrapped. *)
Lemma X11_transport_error_wrapped_witness :
  snd (genericSendCmd (failing (otherError "EOF")) emptyArgs "Launcher.Ping")
  = (mkReply true "" None,
     Some (errorString "unknown error encountered sending command Launcher.Ping: EOF")).
Proof.
  apply (X11_transport_error_wrapped (failing (otherError "EOF")) emptyArgs "Launcher.Ping"
           (mkReply true "" None) (otherError "EOF")); reflexivity.
Defined.

Lemma X12_refusal_reported_witness :
  snd (KillVirtualMachine (refusing "no such domain") (Some tt))
  = Some (errorString "server error. command Launcher.Kill failed: no such domain") /\
  snd (GetDomain (refusing "no such domain"))
  = (None, false,
     Some (errorString "server error. command Launcher.GetDomain failed: no such domain")).
Proof.
  destruct (X12_refusal_reported (refusing "no such domain") (Some tt) None "" "" ""
              (mkReply false "no such domain" None) eq_refl eq_refl)
    as (_ & _ & HK & _ & HG & _).
  split; [exact (HK eq_refl) | exact (HG eq_refl)].
Defined.

Lemma X13_GetDomain_failure_witness :
  snd (GetDomain refusingWithDomain)
  = (None, false, snd (snd (genericSendCmd refusingWithDomain emptyArgs "Launcher.GetDomain"))) /\
  snd (snd (genericSendCmd refusingWithDomain emptyArgs "Launcher.GetDomain")) <> None.
Proof.
  apply (X13_GetDomain_failure refusingWithDomain
           (mkReply false "domain is shutting down" (Some (api.mkDomain "default" "vm1"))) None).
  - reflexivity.
  - right. reflexivity.
Defined.

End OutcomeScenarios.
